(** * SPIKE: root-key custody and the administrative login

    A shallow embedding of the Go sources

    - [app/nexus/internal/route/login.go]   ([routeAdminLogin]),
    - the bootstrap helper                  ([updateStateForInit]),
    - [app/nexus/internal/poll/poll.go]     ([Tick]),
    - the Keeper-side read handler          ([routeShow]),

    together with the pieces of the Go standard library and of
    [golang.org/x/crypto] they call ([encoding/hex], [crypto/sha256],
    [crypto/hmac], [crypto/subtle], [pbkdf2]).

    Conventions: a Go [string] is a Rocq [string], a Go [[]byte] is a
    [list byte], a Go [int] is a [Z], a [uint32] is a [Z] reduced modulo
    [2^32].  A Go [error] result is an [option] holding the error text. *)

From Stdlib Require Import ZArith NArith List String Ascii Bool Lia.
From Stdlib Require Import Strings.Byte.
Import ListNotations.
Local Open Scope Z_scope.

(** * Part I: the model *)

(** ** Go values *)

Definition bytes := list byte.

(** [[]byte(s)] and [string(b)]. *)
Definition bytes_of_string (s : string) : bytes := list_byte_of_string s.
Definition string_of_bytes (b : bytes) : string := string_of_list_byte b.

(** A Go [error]: [None] is [nil], [Some msg] carries [err.Error()]. *)
Definition error := option string.

Definition byte_to_Z (b : byte) : Z := Z.of_N (Byte.to_N b).

(** [byte(z)]: conversion to [uint8] keeps the low eight bits. *)
Definition byte_of_Z (z : Z) : byte :=
  match Byte.of_N (Z.to_N (z mod 256)) with
  | Some b => b
  | None => x00
  end.

(** The [n] low bytes of [z], most significant first:
    [byte(z >> 8(n-1)), ..., byte(z >> 8), byte(z)]. *)
Fixpoint be_bytes (n : nat) (z : Z) : bytes :=
  match n with
  | O => []
  | S n' => byte_of_Z (Z.shiftr z (8 * Z.of_nat n')) :: be_bytes n' z
  end.

(** ** [encoding/hex] *)

Module hex.

Inductive DecodeError :=
| InvalidByteError (b : byte)
| ErrLength.

Definition hextable : bytes := bytes_of_string "0123456789abcdef".

Definition hexdigit (v : Z) : byte := nth (Z.to_nat v) hextable x00.

(** [dst[j] = hextable[v>>4]; dst[j+1] = hextable[v&0x0f]] *)
Fixpoint Encode (src : bytes) : bytes :=
  match src with
  | [] => []
  | v :: rest =>
      hexdigit (Z.shiftr (byte_to_Z v) 4)
        :: hexdigit (Z.land (byte_to_Z v) 15)
        :: Encode rest
  end.

Definition EncodeToString (src : bytes) : string :=
  string_of_bytes (Encode src).

(** [reverseHexTable]: the value of a hexadecimal digit, [255] for
    every other byte. *)
Definition reverseHexTable (c : byte) : Z :=
  let n := byte_to_Z c in
  if (48 <=? n) && (n <=? 57) then n - 48
  else if (97 <=? n) && (n <=? 102) then n - 97 + 10
  else if (65 <=? n) && (n <=? 70) then n - 65 + 10
  else 255.

(** [Decode]: pairs of digits are consumed from the left; the first
    invalid digit stops the loop; a dangling last digit is checked for
    validity before the length is reported.  The bytes decoded so far
    are returned along with the error. *)
Fixpoint Decode (src : bytes) : bytes * option DecodeError :=
  match src with
  | [] => ([], None)
  | [p] =>
      if 15 <? reverseHexTable p then ([], Some (InvalidByteError p))
      else ([], Some ErrLength)
  | p :: q :: rest =>
      let a := reverseHexTable p in
      let b := reverseHexTable q in
      if 15 <? a then ([], Some (InvalidByteError p))
      else if 15 <? b then ([], Some (InvalidByteError q))
      else
        let '(out, err) := Decode rest in
        (byte_of_Z (Z.lor (Z.shiftl a 4) b) :: out, err)
  end.

Definition DecodeString (s : string) : bytes * option DecodeError :=
  Decode (bytes_of_string s).

(** [strconv.IsPrint] on a rune below [0x100]. *)
Definition IsPrint (n : Z) : bool :=
  ((32 <=? n) && (n <=? 126))
  || ((161 <=? n) && (n <=? 255) && negb (n =? 173)).

(** The UTF-8 encoding of a rune below [0x100]. *)
Definition utf8 (n : Z) : bytes :=
  if n <? 128 then [byte_of_Z n]
  else [byte_of_Z (Z.lor 192 (Z.shiftr n 6));
        byte_of_Z (Z.lor 128 (Z.land n 63))].

Definition upperhex (v : Z) : byte :=
  nth (Z.to_nat v) (bytes_of_string "0123456789ABCDEF") x00.

(** [fmt.Sprintf("%#U", rune(b))]: the code point on four upper-case
    digits, followed by the quoted character when it is printable. *)
Definition sharpU (b : byte) : string :=
  let n := byte_to_Z b in
  "U+00"
    ++ string_of_bytes [upperhex (Z.shiftr n 4); upperhex (Z.land n 15)]
    ++ (if IsPrint n then " '" ++ string_of_bytes (utf8 n) ++ "'" else "").

(** [err.Error()] *)
Definition Error (e : DecodeError) : string :=
  match e with
  | InvalidByteError b => "encoding/hex: invalid byte: " ++ sharpU b
  | ErrLength => "encoding/hex: odd length hex string"
  end.

End hex.

(** ** [crypto/sha256]

    The generic block function of the Go library: a [uint32] is a [Z]
    kept below [2^32]; [+] on [uint32] wraps. *)

Module sha256.

Definition u32 (z : Z) : Z := z mod 2 ^ 32.
Definition add32 (x y : Z) : Z := u32 (x + y).

(** [bits.RotateLeft32(x, -k)] *)
Definition rotr (k x : Z) : Z :=
  Z.lor (Z.shiftr x k) (u32 (Z.shiftl x (32 - k))).

(** [^x] on a [uint32] *)
Definition not32 (x : Z) : Z := Z.lxor x 4294967295.

(** [dig.h]: the eight chaining words. *)
Record digest := mkDigest
  { h0 : Z; h1 : Z; h2 : Z; h3 : Z; h4 : Z; h5 : Z; h6 : Z; h7 : Z }.

Definition init : digest :=
  mkDigest 0x6a09e667 0xbb67ae85 0x3c6ef372 0xa54ff53a
           0x510e527f 0x9b05688c 0x1f83d9ab 0x5be0cd19.

(** [w[i] = uint32(p[j])<<24 | uint32(p[j+1])<<16 | uint32(p[j+2])<<8 | uint32(p[j+3])] *)
Fixpoint be_words (n : nat) (p : bytes) : list Z :=
  match n with
  | O => []
  | S n' =>
      match p with
      | a :: b :: c :: d :: rest =>
          Z.lor (Z.lor (Z.lor (Z.shiftl (byte_to_Z a) 24)
                              (Z.shiftl (byte_to_Z b) 16))
                       (Z.shiftl (byte_to_Z c) 8))
                (byte_to_Z d)
            :: be_words n' rest
      | _ => []
      end
  end.

(** [_K]: the sixty-four round constants, eight words to a line. *)
Definition _K : list Z :=
  Eval vm_compute in
  be_words 64 (fst (hex.Decode (bytes_of_string (
    "428a2f9871374491b5c0fbcfe9b5dba53956c25b59f111f1923f82a4ab1c5ed5" ++
    "d807aa9812835b01243185be550c7dc372be5d7480deb1fe9bdc06a7c19bf174" ++
    "e49b69c1efbe47860fc19dc6240ca1cc2de92c6f4a7484aa5cb0a9dc76f988da" ++
    "983e5152a831c66db00327c8bf597fc7c6e00bf3d5a7914706ca635114292967" ++
    "27b70a852e1b21384d2c6dfc53380d13650a7354766a0abb81c2c92e92722c85" ++
    "a2bfe8a1a81a664bc24b8b70c76c51a3d192e819d6990624f40e3585106aa070" ++
    "19a4c1161e376c082748774c34b0bcb5391c0cb34ed8aa4a5b9cca4f682e6ff3" ++
    "748f82ee78a5636f84c878148cc7020890befffaa4506cebbef9a3f7c67178f2")))).

(** The message schedule, newest word first: with [w[i-1]] at the head,
    [w[i-2]], [w[i-7]], [w[i-15]] and [w[i-16]] sit at offsets 1, 6, 14
    and 15. *)
Fixpoint schedule (n : nat) (rw : list Z) : list Z :=
  match n with
  | O => rw
  | S n' =>
      let v1 := nth 1 rw 0 in
      let t1 := Z.lxor (Z.lxor (rotr 17 v1) (rotr 19 v1)) (Z.shiftr v1 10) in
      let v2 := nth 14 rw 0 in
      let t2 := Z.lxor (Z.lxor (rotr 7 v2) (rotr 18 v2)) (Z.shiftr v2 3) in
      schedule n'
        (add32 (add32 (add32 t1 (nth 6 rw 0)) t2) (nth 15 rw 0) :: rw)
  end.

Definition round (d : digest) (kw : Z * Z) : digest :=
  let '(mkDigest a b c d' e f g h) := d in
  let '(k, w) := kw in
  let t1 :=
    add32 (add32 (add32 (add32 h
      (Z.lxor (Z.lxor (rotr 6 e) (rotr 11 e)) (rotr 25 e)))
      (Z.lxor (Z.land e f) (Z.land (not32 e) g))) k) w in
  let t2 :=
    add32 (Z.lxor (Z.lxor (rotr 2 a) (rotr 13 a)) (rotr 22 a))
          (Z.lxor (Z.lxor (Z.land a b) (Z.land a c)) (Z.land b c)) in
  mkDigest (add32 t1 t2) a b c (add32 d' t1) e f g.

(** One 64-byte chunk. *)
Definition block1 (dig : digest) (p : bytes) : digest :=
  let w := rev (schedule 48 (rev (be_words 16 p))) in
  let r := fold_left round (combine _K w) dig in
  mkDigest (add32 (h0 dig) (h0 r)) (add32 (h1 dig) (h1 r))
           (add32 (h2 dig) (h2 r)) (add32 (h3 dig) (h3 r))
           (add32 (h4 dig) (h4 r)) (add32 (h5 dig) (h5 r))
           (add32 (h6 dig) (h6 r)) (add32 (h7 dig) (h7 r)).

(** [for len(p) >= chunk { ...; p = p[chunk:] }] *)
Fixpoint block (n : nat) (dig : digest) (p : bytes) : digest :=
  match n with
  | O => dig
  | S n' => block n' (block1 dig (firstn 64 p)) (skipn 64 p)
  end.

(** [checkSum]: a [0x80] byte, zeros up to 56 modulo 64, then the
    length in bits on eight bytes. *)
Definition pad (len : Z) : bytes :=
  let t := 56 - (len + 1) mod 64 in
  let zeros := if t <? 0 then 64 + t else t in
  x80 :: repeat x00 (Z.to_nat zeros) ++ be_bytes 8 (8 * len).

Definition Sum256 (data : bytes) : bytes :=
  let p := data ++ pad (Z.of_nat (List.length data)) in
  let d := block (List.length p / 64) init p in
  be_bytes 4 (h0 d) ++ be_bytes 4 (h1 d) ++ be_bytes 4 (h2 d)
    ++ be_bytes 4 (h3 d) ++ be_bytes 4 (h4 d) ++ be_bytes 4 (h5 d)
    ++ be_bytes 4 (h6 d) ++ be_bytes 4 (h7 d).

Definition Size : Z := 32.
Definition BlockSize : Z := 64.

End sha256.

(** ** [hash.Hash], [crypto/hmac] and [crypto/subtle] *)

(** What [hmac.New] and [pbkdf2.Key] use of a [func() hash.Hash]: the
    digest of a byte sequence, the digest size and the block size. *)
Record Hash := mkHash
  { Sum : bytes -> bytes;
    Size : Z;
    BlockSize : Z }.

(** [sha256.New] *)
Definition sha256_New : Hash :=
  mkHash sha256.Sum256 sha256.Size sha256.BlockSize.

Definition xor_byte (c : Z) (b : byte) : byte :=
  byte_of_Z (Z.lxor (byte_to_Z b) c).

Module subtle.

(** [int((uint32(x^y) - 1) >> 31)] *)
Definition ConstantTimeByteEq (x y : Z) : Z :=
  Z.shiftr (sha256.u32 (Z.lxor x y - 1)) 31.

(** [v |= x[i] ^ y[i]] over two slices of the same length. *)
Fixpoint or_xor (v : Z) (x y : bytes) : Z :=
  match x, y with
  | a :: x', b :: y' =>
      or_xor (Z.lor v (Z.lxor (byte_to_Z a) (byte_to_Z b))) x' y'
  | _, _ => v
  end.

Definition ConstantTimeCompare (x y : bytes) : Z :=
  if negb (Nat.eqb (List.length x) (List.length y)) then 0
  else ConstantTimeByteEq (or_xor 0 x y) 0.

End subtle.

Module hmac.

(** The key block of [hmac.New]: a key longer than the block size is
    hashed first; [copy] into a zeroed block of [blocksize] bytes. *)
Definition keyblock (h : Hash) (key : bytes) : bytes :=
  let blocksize := Z.to_nat (BlockSize h) in
  let key := if BlockSize h <? Z.of_nat (List.length key)
             then Sum h key else key in
  firstn blocksize (key ++ repeat x00 blocksize).

Definition ipad (h : Hash) (key : bytes) : bytes :=
  map (xor_byte 0x36) (keyblock h key).
Definition opad (h : Hash) (key : bytes) : bytes :=
  map (xor_byte 0x5c) (keyblock h key).

(** [mac := hmac.New(h, key); mac.Write(msg); mac.Sum(nil)] *)
Definition MAC (h : Hash) (key msg : bytes) : bytes :=
  Sum h (opad h key ++ Sum h (ipad h key ++ msg)).

(** [hmac.Equal] *)
Definition Equal (mac1 mac2 : bytes) : bool :=
  subtle.ConstantTimeCompare mac1 mac2 =? 1.

End hmac.

(** ** [golang.org/x/crypto/pbkdf2] *)

Module pbkdf2.

(** [for x := range U { T[x] ^= U[x] }] *)
Fixpoint xor_into (T U : bytes) : bytes :=
  match T, U with
  | t :: T', u :: U' => xor_byte (byte_to_Z u) t :: xor_into T' U'
  | _, _ => T
  end.

(** One turn of the inner loop: [U_n = PRF(password, U_(n-1))],
    [T ^= U_n]. *)
Definition step (h : Hash) (password : bytes) (TU : bytes * bytes)
  : bytes * bytes :=
  let U := hmac.MAC h password (snd TU) in
  (xor_into (fst TU) U, U).

(** The block [T_i = U_1 ^ U_2 ^ ... ^ U_iter]; the loop
    [for n := 2; n <= iter; n++] runs [iter - 1] times, and not at all
    when [iter <= 1]. *)
Definition T (h : Hash) (password salt : bytes) (iter block : Z) : bytes :=
  let U1 := hmac.MAC h password (salt ++ be_bytes 4 block) in
  fst (Z.iter (iter - 1) (step h password) (U1, U1)).

(** [dk[:keyLen]] once every block has been appended to [dk]. *)
Definition dk (password salt : bytes) (iter keyLen : Z) (h : Hash) : bytes :=
  let hashLen := Size h in
  let numBlocks := Z.quot (keyLen + hashLen - 1) hashLen in
  firstn (Z.to_nat keyLen)
    (flat_map (fun block => T h password salt iter (Z.of_nat block))
              (seq 1 (Z.to_nat numBlocks))).

(** [Key]: [None] stands for the run-time panic of [dk[:keyLen]] (or
    of [make]) on a negative [keyLen].  The model keeps a Go [int]
    unbounded: a [keyLen] too large for [make] to allocate, or for
    [keyLen + hashLen - 1] not to wrap, is outside of it. *)
Definition Key (password salt : bytes) (iter keyLen : Z) (h : Hash)
  : option bytes :=
  if keyLen <? 0 then None else Some (dk password salt iter keyLen h).

End pbkdf2.

(** ** [net/http]: the response writer *)

Definition StatusOK : Z := 200.
Definition StatusBadRequest : Z := 400.
Definition StatusUnauthorized : Z := 401.
Definition StatusInternalServerError : Z := 500.

(** What the client receives: the status line, sent once, and the bytes
    of the body. *)
Record ResponseWriter := mkWriter
  { status : option Z;
    written : bytes }.

Definition fresh_writer : ResponseWriter := mkWriter None [].

(** [w.WriteHeader(code)]: only the first call sends a status; a later
    one is superfluous and ignored. *)
Definition WriteHeader (code : Z) (w : ResponseWriter) : ResponseWriter :=
  match status w with
  | None => mkWriter (Some code) (written w)
  | Some _ => w
  end.

(** [w.Write(b)]: sends [200] first if no status was sent yet. *)
Definition Write (b : bytes) (w : ResponseWriter) : ResponseWriter :=
  let w' := WriteHeader StatusOK w in
  mkWriter (status w') (written w' ++ b).

(** [io.WriteString(w, s)] *)
Definition WriteString (s : string) (w : ResponseWriter) : ResponseWriter :=
  Write (bytes_of_string s) w.

(** [*http.Request], as far as the handlers look at it. *)
Record Request := mkRequest
  { Method : string;
    Path : string;
    RawQuery : string;
    Body : bytes }.

(** ** Logging and audit *)

Inductive LogEntry :=
| Info (args : list string)
| Error (args : list string)
| Println (args : list string).

(** [log.AuditEntry]; the handlers only set [Action]. *)
Record AuditEntry := mkAudit { Action : string }.

(** ** [internal/entity/v1/reqres] *)

Module reqres.

(** Modelled from the spec: the [reqres] package is absent from the
    sources; the error codes are the coarse codes of the admin surface
    ([bad_input], [unauthorized], [server_fault]), and [ErrorCode] is a
    string type. *)
Definition ErrorCode := string.
Bind Scope string_scope with ErrorCode.
Definition ErrBadInput : ErrorCode := "bad_input"%string.
Definition ErrUnauthorized : ErrorCode := "unauthorized"%string.
Definition ErrServerFault : ErrorCode := "server_fault"%string.

Record AdminLoginRequest := mkAdminLoginRequest { Password : string }.

Record AdminLoginResponse := mkAdminLoginResponse
  { Token : string;
    Err : ErrorCode }.

Record RootKeyReadRequest := mkRootKeyReadRequest { }.

Record RootKeyReadResponse := mkRootKeyReadResponse { RootKey : string }.

End reqres.

(** ** [app/nexus/internal/state] *)

Module state.

Record Credentials := mkCredentials
  { PasswordHash : string;
    Salt : string }.

(** Modelled from the spec: the [state] package is absent from the
    sources; it is the pure state holder with accessors of the
    CredentialVault and the RootKeyStore: the admin token, the admin
    credential record and the root key, each with a getter and a
    setter. *)
Record t := mk
  { adminToken : string;
    adminCredentials : Credentials;
    rootKey : string }.

Definition empty : t := mk "" (mkCredentials "" "") "".

Definition AdminToken (s : t) : string := adminToken s.
Definition AdminCredentials (s : t) : Credentials := adminCredentials s.
Definition RootKey (s : t) : string := rootKey s.

Definition SetAdminToken (token : string) (s : t) : t :=
  mk token (adminCredentials s) (rootKey s).
Definition SetAdminCredentials (passwordHash salt : string) (s : t) : t :=
  mk (adminToken s) (mkCredentials passwordHash salt) (rootKey s).
Definition SetRootKey (key : string) (s : t) : t :=
  mk (adminToken s) (adminCredentials s) key.

End state.

(** ** The handler monad

    A handler runs against the state of its process (of type [S]), the
    response writer of the request, the log and the audit entry; it may
    panic. *)

Record Ctx (S : Type) := mkCtx
  { st : S;
    w : ResponseWriter;
    log : list LogEntry;
    audit : AuditEntry }.
Arguments mkCtx {S} st w log audit.
Arguments st {S} c.
Arguments w {S} c.
Arguments log {S} c.
Arguments audit {S} c.

Inductive Res (S A : Type) :=
| Panic
| Done (a : A) (c : Ctx S).
Arguments Panic {S A}.
Arguments Done {S A} a c.

Definition M (S A : Type) := Ctx S -> Res S A.

Section Monad.

Context {S : Type}.

Definition ret {A} (a : A) : M S A := fun c => Done a c.

Definition bind {A B} (m : M S A) (k : A -> M S B) : M S B :=
  fun c => match m c with
           | Panic => Panic
           | Done a c' => k a c'
           end.

(** A library call that panics on [None]. *)
Definition must {A} (o : option A) : M S A :=
  fun c => match o with
           | None => Panic
           | Some a => Done a c
           end.

Definition logInfo (args : list string) : M S unit :=
  fun c => Done tt (mkCtx (st c) (w c) (log c ++ [Info args]) (audit c)).
Definition logError (args : list string) : M S unit :=
  fun c => Done tt (mkCtx (st c) (w c) (log c ++ [Error args]) (audit c)).
Definition logPrintln (args : list string) : M S unit :=
  fun c => Done tt (mkCtx (st c) (w c) (log c ++ [Println args]) (audit c)).

Definition setAuditAction (a : string) : M S unit :=
  fun c => Done tt (mkCtx (st c) (w c) (log c) (mkAudit a)).

(** Reading and updating the process state. *)
Definition getState {A} (f : S -> A) : M S A :=
  fun c => Done (f (st c)) c.
Definition setState (f : S -> S) : M S unit :=
  fun c => Done tt (mkCtx (f (st c)) (w c) (log c) (audit c)).

(** A call that is handed the response writer [w]. *)
Definition onWriter {A} (f : ResponseWriter -> A * ResponseWriter) : M S A :=
  fun c => let '(a, w') := f (w c) in
           Done a (mkCtx (st c) w' (log c) (audit c)).

End Monad.

Declare Scope handler_scope.
Delimit Scope handler_scope with handler.
Notation "x <- m ;; k" := (bind m (fun x => k))
  (at level 61, m at next level, right associativity) : handler_scope.
Notation "m ;; k" := (bind m (fun _ => k))
  (at level 61, right associativity) : handler_scope.

(** ** [internal/net]: the request and response helpers

    The package is absent from the sources.  Its functions are handed
    the response writer [w] and nothing of the process state: the state
    lives in [app/nexus/internal/state], which a package outside
    [app/nexus] cannot import.  Each helper is therefore a function of
    its arguments and of [w], returning its result and the writer it
    leaves behind. *)

Module net.

Record Helpers := mkHelpers
  { (** [ReadRequestBody(r, w)]: [None] is the [nil] slice. *)
    ReadRequestBody :
      Request -> ResponseWriter -> option bytes * ResponseWriter;
    (** [HandleRequest[Req, Res](requestBody, w, errorResponse)]: [None]
        is the [nil] pointer. *)
    HandleRequest :
      bytes -> ResponseWriter -> reqres.AdminLoginResponse ->
      option reqres.AdminLoginRequest * ResponseWriter;
    (** [MarshalBody(res, w)]: [None] is the [nil] slice. *)
    MarshalBody :
      reqres.AdminLoginResponse -> ResponseWriter ->
      option bytes * ResponseWriter;
    (** [CreateJwt(adminToken, w)]: the empty string on failure. *)
    CreateJwt : string -> ResponseWriter -> string * ResponseWriter }.

(** Modelled from the spec: [Respond(statusCode, body, w)] is absent
    from the sources; it sends the status and then the body, which is
    how the admin surface answers [200 {token}], [401 {err}] and
    [500 {err}]. *)
Definition Respond (statusCode : Z) (body : bytes) (w : ResponseWriter)
  : unit * ResponseWriter :=
  (tt, Write body (WriteHeader statusCode w)).

End net.

(** ** [app/nexus/internal/env] *)

Module env.

(** The package is absent from the sources: the two values that
    [updateStateForInit] reads from it are taken as they come. *)
Record t := mk
  { Pbkdf2IterationCount : Z;
    ShaHashLength : Z }.

End env.

(** ** [app/nexus/internal/route] *)

Section Route.

Local Open Scope handler_scope.

Variable helpers : net.Helpers.
Variable environment : env.t.

(** [updateStateForInit] *)
Definition updateStateForInit
  (password : string) (adminTokenBytes salt : bytes) : M state.t unit :=
  let iterationCount := env.Pbkdf2IterationCount environment in
  let hashLength := env.ShaHashLength environment in
  passwordHash <-
    must (pbkdf2.Key (bytes_of_string password) salt
                     iterationCount hashLength sha256_New) ;;
  setState (state.SetAdminToken
              ("spike." ++ string_of_bytes adminTokenBytes)) ;;
  setState (state.SetAdminCredentials
              (hex.EncodeToString passwordHash)
              (hex.EncodeToString salt)).

(** [routeAdminLogin]: the value returned is the Go [error]. *)
Definition routeAdminLogin (r : Request) : M state.t error :=
  logInfo ["routeAdminLogin"; "method"; Method r; "path"; Path r;
           "query"; RawQuery r]%string ;;
  setAuditAction "login" ;;
  requestBody <- onWriter (net.ReadRequestBody helpers r) ;;
  match requestBody with
  | None => ret (Some "failed to read request body"%string)
  | Some requestBody =>
  request <- onWriter (fun w =>
               net.HandleRequest helpers requestBody w
                 (reqres.mkAdminLoginResponse "" reqres.ErrBadInput)) ;;
  match request with
  | None => ret (Some "failed to parse request body"%string)
  | Some request =>
  let password := reqres.Password request in
  creds <- getState state.AdminCredentials ;;
  let passwordHash := state.PasswordHash creds in
  let salt := state.Salt creds in
  let '(s, err) := hex.DecodeString salt in
  match err with
  | Some err =>
      logError ["routeAdminLogin"; "msg"; "Problem decoding salt";
                "err"; hex.Error err]%string ;;
      body <- onWriter (net.MarshalBody helpers
                (reqres.mkAdminLoginResponse "" reqres.ErrServerFault)) ;;
      match body with
      | None => ret (Some "failed to marshal response body"%string)
      | Some body =>
          onWriter (net.Respond StatusInternalServerError body) ;;
          logInfo ["routeAdminLogin"; "msg"; "unauthorized"]%string ;;
          ret (Some "failed to decode salt"%string)
      end
  | None =>
  let iterationCount := 600000 in
  let hashLength := 32 in
  ph <- must (pbkdf2.Key (bytes_of_string password) s
                         iterationCount hashLength sha256_New) ;;
  let '(b, err) := hex.DecodeString passwordHash in
  match err with
  | Some err =>
      logError ["routeAdminLogin"; "msg"; "Problem decoding password hash";
                "err"; hex.Error err]%string ;;
      responseBody <- onWriter (net.MarshalBody helpers
                (reqres.mkAdminLoginResponse "" reqres.ErrServerFault)) ;;
      match responseBody with
      | None => ret (Some "failed to marshal response body"%string)
      | Some responseBody =>
          onWriter (net.Respond StatusInternalServerError responseBody) ;;
          logInfo ["routeAdminLogin"; "msg"; "OK"]%string ;;
          ret (Some "failed to decode password hash"%string)
      end
  | None =>
  if negb (hmac.Equal ph b) then
    logInfo ["routeAdminLogin"; "msg"; "Invalid password"]%string ;;
    responseBody <- onWriter (net.MarshalBody helpers
              (reqres.mkAdminLoginResponse "" reqres.ErrUnauthorized)) ;;
    match responseBody with
    | None => ret (Some "failed to marshal response body"%string)
    | Some responseBody =>
        onWriter (net.Respond StatusUnauthorized responseBody) ;;
        logInfo ["routeAdminLogin"; "msg"; "unauthorized"]%string ;;
        ret (Some "invalid password"%string)
    end
  else
  adminToken <- getState state.AdminToken ;;
  if String.eqb adminToken "" then
    logError ["routeAdminLogin"; "msg"; "Admin token not set"]%string ;;
    responseBody <- onWriter (net.MarshalBody helpers
              (reqres.mkAdminLoginResponse "" reqres.ErrServerFault)) ;;
    match responseBody with
    | None => ret (Some "failed to marshal response body"%string)
    | Some responseBody =>
        onWriter (net.Respond StatusInternalServerError responseBody) ;;
        logInfo ["routeAdminLogin"; "msg"; "unauthorized"]%string ;;
        ret (Some "admin token not set"%string)
    end
  else
  signedToken <- onWriter (net.CreateJwt helpers adminToken) ;;
  if String.eqb signedToken "" then
    ret (Some "failed to sign token"%string)
  else
  responseBody <- onWriter (net.MarshalBody helpers
            (reqres.mkAdminLoginResponse signedToken ""%string)) ;;
  match responseBody with
  | None => ret (Some "failed to marshal response body"%string)
  | Some responseBody =>
      onWriter (net.Respond StatusOK responseBody) ;;
      logInfo ["routeAdminLogin"; "msg"; "authorized"]%string ;;
      ret None
  end
  end
  end
  end
  end.

End Route.

Arguments pbkdf2.Key : simpl never.
Arguments pbkdf2.dk : simpl never.
Arguments hex.DecodeString : simpl never.
Arguments hex.EncodeToString : simpl never.
Arguments hmac.Equal : simpl never.

(** ** Running a handler *)

(** The context a handler starts from: the process state, a writer on
    which nothing was sent, no log line, a blank audit entry. *)
Definition start {S} (s : S) : Ctx S := mkCtx s fresh_writer [] (mkAudit "").

(** The handler returned [ret], having sent [code] and [body] and left
    the process state as [s']. *)
Definition answered {S A} (res : Res S A) (ret : A) (code : Z) (body : bytes)
  (s' : S) : Prop :=
  exists c', res = Done ret c' /\ st c' = s'
             /\ status (w c') = Some code /\ written (w c') = body.

(** The handler sent [code] and [body]. *)
Definition responded {S A} (res : Res S A) (code : Z) (body : bytes) : Prop :=
  exists a c', res = Done a c'
               /\ status (w c') = Some code /\ written (w c') = body.

(** [wp m Q c]: run from [c], the handler [m] does not panic and ends
    with a value and a context that satisfy [Q]. *)
Definition wp {S A} (m : M S A) (Q : A -> Ctx S -> Prop) (c : Ctx S) : Prop :=
  match m c with
  | Panic => False
  | Done a c' => Q a c'
  end.

(** ** A double of the login helpers *)

(** A double of the [internal/net] helpers, to run the handlers on
    concrete requests: the body of the request is the password, a
    response is rendered as text, and the session token is an
    HMAC-SHA256 tag keyed by the admin token. *)
Definition render (res : reqres.AdminLoginResponse) : bytes :=
  bytes_of_string
    ("{token:" ++ reqres.Token res ++ ",err:" ++ reqres.Err res ++ "}").

Definition sign (adminToken : string) : string :=
  "jwt." ++ hex.EncodeToString
              (hmac.MAC sha256_New (bytes_of_string adminToken)
                        (bytes_of_string "admin")).

Definition double : net.Helpers :=
  net.mkHelpers
    (fun r w => (Some (Body r), w))
    (fun body w _ =>
       (Some (reqres.mkAdminLoginRequest (string_of_bytes body)), w))
    (fun res w => (Some (render res), w))
    (fun adminToken w => (sign adminToken, w)).

(** A request carrying [password] in its body. *)
Definition login_request (password : string) : Request :=
  mkRequest "POST" "/login" "" (bytes_of_string password).

(** ** The login as the AuthGate describes it *)

(** The request [r] is read and parsed, and carries [password]: this is
    the call [Login(password)]. *)
Definition submits (helpers : net.Helpers) (r : Request) (password : string)
  : Prop :=
  exists body,
    net.ReadRequestBody helpers r fresh_writer = (Some body, fresh_writer)
    /\ net.HandleRequest helpers body fresh_writer
         (reqres.mkAdminLoginResponse "" reqres.ErrBadInput)
       = (Some (reqres.mkAdminLoginRequest password), fresh_writer).

(** Marshalling a response succeeds and sends nothing by itself. *)
Definition marshals (helpers : net.Helpers)
  (encode : reqres.AdminLoginResponse -> bytes) : Prop :=
  forall res wr, net.MarshalBody helpers res wr = (Some (encode res), wr).

(** Signing under a non-empty admin token succeeds and sends nothing by
    itself. *)
Definition signs (helpers : net.Helpers) (jwt : string -> string) : Prop :=
  forall adminToken wr,
    adminToken <> ""%string ->
    net.CreateJwt helpers adminToken wr = (jwt adminToken, wr)
    /\ jwt adminToken <> ""%string.

(** The candidate hash of [routeAdminLogin]: PBKDF2-HMAC-SHA256, 600,000
    iterations, 32 bytes. *)
Definition candidate (password : string) (salt : bytes) : bytes :=
  pbkdf2.dk (bytes_of_string password) salt 600000 32 sha256_New.

Definition ServerFaultResponse : reqres.AdminLoginResponse :=
  reqres.mkAdminLoginResponse "" reqres.ErrServerFault.
Definition UnauthorizedResponse : reqres.AdminLoginResponse :=
  reqres.mkAdminLoginResponse "" reqres.ErrUnauthorized.
Definition TokenResponse (signedToken : string) : reqres.AdminLoginResponse :=
  reqres.mkAdminLoginResponse signedToken "".

(** The decision of [Login(password)] on the state [s], following the
    steps of the AuthGate: the value returned, the status and the
    response. *)
Definition Login (jwt : string -> string) (s : state.t) (password : string)
  : error * Z * reqres.AdminLoginResponse :=
  let creds := state.AdminCredentials s in
  match hex.DecodeString (state.Salt creds) with
  | (_, Some _) =>
      (Some "failed to decode salt"%string, StatusInternalServerError,
       ServerFaultResponse)
  | (salt, None) =>
      match hex.DecodeString (state.PasswordHash creds) with
      | (_, Some _) =>
          (Some "failed to decode password hash"%string,
           StatusInternalServerError, ServerFaultResponse)
      | (stored, None) =>
          if hmac.Equal (candidate password salt) stored then
            if String.eqb (state.AdminToken s) "" then
              (Some "admin token not set"%string,
               StatusInternalServerError, ServerFaultResponse)
            else
              (None, StatusOK, TokenResponse (jwt (state.AdminToken s)))
          else
            (Some "invalid password"%string, StatusUnauthorized,
             UnauthorizedResponse)
      end
  end.

(** The three server-side faults of the login. *)
Definition salt_corrupt (s : state.t) : Prop :=
  snd (hex.DecodeString (state.Salt (state.AdminCredentials s))) <> None.
Definition hash_corrupt (s : state.t) : Prop :=
  snd (hex.DecodeString (state.PasswordHash (state.AdminCredentials s)))
  <> None.
Definition password_matches (s : state.t) (password : string) : Prop :=
  exists salt stored,
    hex.DecodeString (state.Salt (state.AdminCredentials s)) = (salt, None)
    /\ hex.DecodeString (state.PasswordHash (state.AdminCredentials s))
       = (stored, None)
    /\ candidate password salt = stored.
Definition server_fault (s : state.t) (password : string) : Prop :=
  salt_corrupt s \/ hash_corrupt s
  \/ (password_matches s password /\ state.AdminToken s = ""%string).

(** ** States and environments of the examples *)

(** A state whose stored salt is not hexadecimal. *)
Definition corrupt_state : state.t :=
  state.mk "spike.k" (state.mkCredentials "00" "zz") "".

(** A bootstrapped state: the credential record of the password
    ["hunter2"] under [example_salt], and an admin token. *)
Definition example_salt : bytes :=
  [x5a; x11; xc3; x09; x7e; xf0; x42; x8d].

Definition example_state : state.t :=
  state.mk "spike.k"
    (state.mkCredentials
       (hex.EncodeToString (candidate "hunter2" example_salt))
       (hex.EncodeToString example_salt))
    "".

(** ["hunter2"] followed by a zero byte. *)
Definition hunter2_nul : string := "hunter2" ++ String Ascii.zero "".

(** The environment that holds the values of the login handler. *)
Definition env_default : env.t := env.mk 600000 32.

(** An environment with a hash length of 16 bytes. *)
Definition env_short : env.t := env.mk 600000 16.

(** ** What the bootstrap stores *)

(** The derived key stored by the bootstrap under the environment
    [environment]. *)
Definition bootstrap_hash (environment : env.t) (password : string)
  (salt : bytes) : bytes :=
  pbkdf2.dk (bytes_of_string password) salt
            (env.Pbkdf2IterationCount environment)
            (env.ShaHashLength environment) sha256_New.

(** The state a call of [updateStateForInit] leaves behind. *)
Definition bootstrapped (environment : env.t) (password : string)
  (adminTokenBytes salt : bytes) (s : state.t) : state.t :=
  state.mk ("spike." ++ string_of_bytes adminTokenBytes)
           (state.mkCredentials
              (hex.EncodeToString (bootstrap_hash environment password salt))
              (hex.EncodeToString salt))
           (state.RootKey s).

(** ** The decode-failure branches of the login *)

(** A log line of one of the two decode-failure branches of the login. *)
Definition decode_problem (e : LogEntry) : bool :=
  match e with
  | Error (_ :: _ :: msg :: _) =>
      String.eqb msg "Problem decoding salt"
      || String.eqb msg "Problem decoding password hash"
  | _ => false
  end.

(** The login did not go through a decode-failure branch. *)
Definition no_decode_fault (ret : error) (c : Ctx state.t) : Prop :=
  forallb (fun e => negb (decode_problem e)) (log c) = true
  /\ ret <> Some "failed to decode salt"%string
  /\ ret <> Some "failed to decode password hash"%string.

(** ** [app/nexus/internal/poll]: the replicator *)

Module poll.

(** Modelled from the spec: a Keeper as the replicator sees it.  The
Keeper-side [Receive] overwrites the held root key unconditionally and
holds it in memory only; the endpoint bookkeeping counts the push
attempts.  Whether the Keeper can be reached is a fact of the network. *)
Record Keeper := mkKeeper
  { reachable : bool;
    held : string;
    attempts : nat }.

(** Modelled from the spec: one push of [{rootKey}] to one Keeper.  The
attempt is always counted; the key is overwritten on success only. *)
Definition push (key : string) (k : Keeper) : Keeper :=
  if reachable k then mkKeeper true key (S (attempts k))
  else mkKeeper false (held k) (S (attempts k)).

(** Modelled from the spec: [net.UpdateCache(source, key)] of
[app/nexus/internal/net] is absent from the sources.  It attempts a push
to each configured Keeper in turn; a failure on one Keeper does not
keep it from going on to the next; the error it returns reports that
some push failed. *)
Definition UpdateCache (key : string) (keepers : list Keeper)
  : list Keeper * error :=
  (map (push key) keepers,
   if forallb reachable keepers then None
   else Some "keeper unreachable"%string).

(** What the loop runs against: the Nexus state, the Keepers and the
process log. *)
Record World := mkWorld
  { nexus : state.t;
    keepers : list Keeper;
    journal : list LogEntry }.

(** What the [select] of the loop, and the world around it, can see
happen: the ticker fires, the context is cancelled; between two ticks a
Keeper comes up or goes down, or a handler sets the root key. *)
Inductive Event :=
| TickerC
| CtxDone
| KeeperUp (i : nat)
| KeeperDown (i : nat)
| RootKeySet (key : string).

Inductive Status :=
| Returned
| Waiting.

Fixpoint set_reachable (i : nat) (b : bool) (ks : list Keeper) : list Keeper :=
  match ks, i with
  | [], _ => []
  | k :: ks', O => mkKeeper b (held k) (attempts k) :: ks'
  | k :: ks', S i' => k :: set_reachable i' b ks'
  end.

(** The body of [case <-ticker.C]. *)
Definition onTick (wd : World) : World :=
  let key := state.RootKey (nexus wd) in
  if String.eqb key "" then wd
  else
    let '(ks, err) := UpdateCache key (keepers wd) in
    match err with
    | Some err =>
        mkWorld (nexus wd) ks
          (journal wd ++
           [Println [""%string];
            Println ["Unable to update the cache: " ++ err]%string;
            Println ["Make sure SPIKE Keeper is up and running"%string];
            Println [""%string]])
    | None =>
        mkWorld (nexus wd) ks
          (journal wd ++ [Println ["Successfully updated the cache"%string]])
    end.

(** [Tick]: the loop over the events it is woken by; it returns when
the context is done and waits when nothing more happens. *)
Fixpoint Tick (events : list Event) (wd : World) : World * Status :=
  match events with
  | [] => (wd, Waiting)
  | TickerC :: rest => Tick rest (onTick wd)
  | CtxDone :: _ => (wd, Returned)
  | KeeperUp i :: rest =>
      Tick rest (mkWorld (nexus wd) (set_reachable i true (keepers wd))
                         (journal wd))
  | KeeperDown i :: rest =>
      Tick rest (mkWorld (nexus wd) (set_reachable i false (keepers wd))
                         (journal wd))
  | RootKeySet key :: rest =>
      Tick rest (mkWorld (state.SetRootKey key (nexus wd)) (keepers wd)
                         (journal wd))
  end.

End poll.

(** ** [app/keeper/internal/route]: the Keeper-side read handler *)

Module keeper.

(** Modelled from the spec: [app/keeper/internal/state] is absent from
the sources; the Keeper holds the root key it last received in memory,
the empty string when none was received yet. *)
Record State := mkState { rootKey : string }.

Definition RootKey (s : State) : string := rootKey s.

(** The helpers of [internal/net] that [routeShow] calls, and the two
[encoding/json] calls on the request and response types. *)
Record Helpers := mkHelpers
  { (** [net.ReadRequestBody(r, w)]: [None] is the [nil] slice. *)
    ReadRequestBody :
      Request -> ResponseWriter -> option bytes * ResponseWriter;
    (** [net.HandleRequestError(w, err)] *)
    HandleRequestError :
      ResponseWriter -> error -> error * ResponseWriter;
    (** [json.Unmarshal(body, &req)] with [req] a [RootKeyReadRequest] *)
    Unmarshal : bytes -> error;
    (** [json.Marshal(res)] with [res] a [RootKeyReadResponse] *)
    Marshal : reqres.RootKeyReadResponse -> bytes * error }.

Section Route.

Local Open Scope handler_scope.

Variable helpers : Helpers.

(** [routeShow]; a write on [w] is taken to succeed. *)
Definition routeShow (r : Request) : M State unit :=
  logPrintln ["routeShow:"; Method r; Path r; RawQuery r]%string ;;
  body <- onWriter (ReadRequestBody helpers r) ;;
  match body with
  | None => ret tt
  | Some body =>
  err <- onWriter (fun w =>
           HandleRequestError helpers w (Unmarshal helpers body)) ;;
  match err with
  | Some err =>
      logPrintln ["routeShow: Problem handling request:"; err]%string ;;
      onWriter (fun w => (tt, WriteHeader StatusBadRequest w)) ;;
      onWriter (fun w => (tt, WriteString "" w)) ;;
      ret tt
  | None =>
  rootKey <- getState RootKey ;;
  let res := reqres.mkRootKeyReadResponse rootKey in
  let '(md, err) := Marshal helpers res in
  match err with
  | Some err =>
      logPrintln ["routeShow: Problem generating response:"; err]%string ;;
      onWriter (fun w => (tt, WriteHeader StatusInternalServerError w))
  | None => ret tt
  end ;;
  onWriter (fun w => (tt, WriteHeader StatusOK w)) ;;
  onWriter (fun w => (tt, WriteString (string_of_bytes md) w)) ;;
  ret tt
  end
  end.

End Route.

(** The body of [r] is read without anything being sent. *)
Definition reads (helpers : Helpers) (r : Request) (body : bytes) : Prop :=
  ReadRequestBody helpers r fresh_writer = (Some body, fresh_writer).

(** [HandleRequestError] hands a [nil] error back and sends nothing; on
an error it returns an error, and either sends nothing or has already
sent [400] with an empty body. *)
Definition handles_errors (helpers : Helpers) : Prop :=
  HandleRequestError helpers fresh_writer None = (None, fresh_writer)
  /\ forall e, exists e' w',
       HandleRequestError helpers fresh_writer (Some e) = (Some e', w')
       /\ (w' = fresh_writer \/ w' = mkWriter (Some StatusBadRequest) []).

(** A double of the helpers: the only well-formed body is ["{}"]; an
error is answered [400] with an empty body by [HandleRequestError]
itself; the response is rendered as text. *)
Definition double : Helpers :=
  mkHelpers
    (fun r w => (Some (Body r), w))
    (fun w err =>
       match err with
       | None => (None, w)
       | Some e => (Some e, WriteString "" (WriteHeader StatusBadRequest w))
       end)
    (fun body =>
       if String.eqb (string_of_bytes body) "{}" then None
       else Some "invalid character"%string)
    (fun res =>
       (bytes_of_string ("{rootKey:" ++ reqres.RootKey res ++ "}"), None)).

End keeper.

(** ** The recovery coordinator *)

Module recovery.

(** Modelled from the spec: the RecoveryCoordinator is absent from the
sources.  One response is collected from every configured Keeper: the
key it holds or the empty string, and the error of the query or [nil]. *)
Record Response := mkResponse
  { key : string;
    err : error }.

(** Modelled from the spec: a successful non-empty response. *)
Definition successful (r : Response) : bool :=
  match err r with
  | None => negb (String.eqb (key r) "")
  | Some _ => false
  end.

(** Modelled from the spec: the values of the successful non-empty
responses. *)
Definition values (rs : list Response) : list string :=
  map key (filter successful rs).

(** Modelled from the spec: how many responses carry the value [k]
(the size of its group). *)
Definition votes (k : string) (vs : list string) : nat :=
  count_occ string_dec vs k.

(** Modelled from the spec: the quorum threshold [T = floor(N/2) + 1]
for [N] configured Keepers. *)
Definition threshold (N : nat) : nat := (N / 2 + 1)%nat.

(** Modelled from the spec: [Recover() -> RootKey | RecoveryError] on
the responses of the [N = length rs] configured Keepers: the value
returned by at least [T] Keepers is accepted; [None] is the recovery
error. *)
Definition Recover (rs : list Response) : option string :=
  let vs := values rs in
  find (fun k => (threshold (List.length rs) <=? votes k vs)%nat) vs.

End recovery.

(** ** Further doubles and the log of a login *)

(** Helpers that cannot read the body of a request: [ReadRequestBody]
    answers [400] itself and returns [nil]. *)
Definition unreadable : net.Helpers :=
  net.mkHelpers
    (fun r w => (None, Write [] (WriteHeader StatusBadRequest w)))
    (net.HandleRequest double)
    (net.MarshalBody double)
    (net.CreateJwt double).

(** Helpers whose [MarshalBody] fails without sending anything. *)
Definition unmarshalling : net.Helpers :=
  net.mkHelpers
    (net.ReadRequestBody double)
    (net.HandleRequest double)
    (fun res w => (None, w))
    (net.CreateJwt double).

(** Helpers whose [CreateJwt] fails, having answered [500] itself. *)
Definition unsigning : net.Helpers :=
  net.mkHelpers
    (net.ReadRequestBody double)
    (net.HandleRequest double)
    (net.MarshalBody double)
    (fun adminToken w =>
       (""%string, Write [] (WriteHeader StatusInternalServerError w))).

(** The first log line of [routeAdminLogin]. *)
Definition request_line (r : Request) : LogEntry :=
  Info ["routeAdminLogin"; "method"; Method r; "path"; Path r;
        "query"; RawQuery r]%string.

(** The log lines of a login with [password] on the state [s], branch
    by branch of [routeAdminLogin]. *)
Definition login_log (r : Request) (s : state.t) (password : string)
  : list LogEntry :=
  let creds := state.AdminCredentials s in
  request_line r ::
  match hex.DecodeString (state.Salt creds) with
  | (_, Some e) =>
      [Error ["routeAdminLogin"; "msg"; "Problem decoding salt";
              "err"; hex.Error e]%string;
       Info ["routeAdminLogin"; "msg"; "unauthorized"]%string]
  | (salt, None) =>
      match hex.DecodeString (state.PasswordHash creds) with
      | (_, Some e) =>
          [Error ["routeAdminLogin"; "msg"; "Problem decoding password hash";
                  "err"; hex.Error e]%string;
           Info ["routeAdminLogin"; "msg"; "OK"]%string]
      | (stored, None) =>
          if hmac.Equal (candidate password salt) stored then
            if String.eqb (state.AdminToken s) "" then
              [Error ["routeAdminLogin"; "msg"; "Admin token not set"]%string;
               Info ["routeAdminLogin"; "msg"; "unauthorized"]%string]
            else [Info ["routeAdminLogin"; "msg"; "authorized"]%string]
          else
            [Info ["routeAdminLogin"; "msg"; "Invalid password"]%string;
             Info ["routeAdminLogin"; "msg"; "unauthorized"]%string]
      end
  end.

(** The context a login ends in on [corrupt_state]. *)
Definition fault_ctx (P : string) : Ctx state.t :=
  mkCtx corrupt_state
    (mkWriter (Some StatusInternalServerError) (render ServerFaultResponse))
    (login_log (login_request P) corrupt_state P) (mkAudit "login").

(** A state whose stored hash decodes to a single byte. *)
Definition short_hash_state : state.t :=
  state.mk "spike.k" (state.mkCredentials "00" "00") "".

(** Keeper helpers whose [json.Marshal] fails. *)
Definition keeper_unmarshalling : keeper.Helpers :=
  keeper.mkHelpers
    (keeper.ReadRequestBody keeper.double)
    (keeper.HandleRequestError keeper.double)
    (keeper.Unmarshal keeper.double)
    (fun res => ([], Some "json: unsupported value"%string)).

(** A byte that [hex.Decode] accepts as a digit. *)
Definition hex_digit (c : byte) : Prop := hex.reverseHexTable c <= 15.

(** ** The bootstrap operation *)

Module bootstrap.

(** Modelled from the spec: the bootstrap operation [Initialize], the
caller of [updateStateForInit], is absent from the sources.  An instance
is the Nexus process with its Keepers and its log, and the epoch of the
root key it holds. *)
Record Instance := mkInstance
  { world : poll.World;
    epoch : Z }.

(** Modelled from the spec: the explicit error of a call to [Initialize]
on an instance that is already bootstrapped. *)
Definition ErrAlreadyInitialized : string := "already initialized".

(** Modelled from the spec: bootstrap has run when the admin token is
not empty; the token is created at bootstrap and has to exist before any
session token is issued. *)
Definition initialized (i : Instance) : bool :=
  negb (String.eqb (state.AdminToken (poll.nexus (world i))) "").

(** Modelled from the spec: [Initialize(password)], with the random
draws of the operation (the admin token bytes, the salt and the fresh
root key) as arguments.  The guard comes first: on an instance that is
already bootstrapped the call is refused with an explicit error and
changes nothing.  Otherwise the admin token and the credential record
are stored by [updateStateForInit], the fresh root key is stored at
epoch 1, and a replicator push is triggered at once (the body of a
tick).  [None] is the panic of [updateStateForInit]. *)
Definition Initialize (environment : env.t) (password : string)
  (adminTokenBytes salt : bytes) (rootKey : string) (i : Instance)
  : option (Instance * error) :=
  if initialized i then Some (i, Some ErrAlreadyInitialized)
  else
    match updateStateForInit environment password adminTokenBytes salt
                             (start (poll.nexus (world i))) with
    | Panic => None
    | Done _ c =>
        Some (mkInstance
                (poll.onTick
                   (poll.mkWorld (state.SetRootKey rootKey (st c))
                                 (poll.keepers (world i))
                                 (poll.journal (world i))))
                1,
              None)
    end.

End bootstrap.

(** An instance that was never bootstrapped, with two Keepers. *)
Definition fresh_instance : bootstrap.Instance :=
  bootstrap.mkInstance
    (poll.mkWorld state.empty
                  [poll.mkKeeper true "" 0; poll.mkKeeper false "" 0] [])
    0.

(** * Part II: properties *)

(** ** The library models: round trips and test vectors *)

Lemma be_bytes_length n z : List.length (be_bytes n z) = n.
Proof. induction n; cbn [be_bytes List.length]; congruence. Qed.

Example hex_encode_ex :
  hex.EncodeToString [x00; x0f; xa5; xff] = "000fa5ff"%string.
Proof. reflexivity. Qed.

Example hex_decode_ex :
  hex.DecodeString "000FA5ff" = ([x00; x0f; xa5; xff], None).
Proof. reflexivity. Qed.

Example hex_decode_odd :
  hex.DecodeString "abc" = ([xab], Some hex.ErrLength).
Proof. reflexivity. Qed.

Example hex_decode_bad :
  hex.DecodeString "zz" = ([], Some (hex.InvalidByteError "z"%byte)).
Proof. reflexivity. Qed.

Example hex_error_text :
  hex.Error (hex.InvalidByteError "z"%byte)
  = "encoding/hex: invalid byte: U+007A 'z'"%string
  /\ hex.Error (hex.InvalidByteError x00)
     = "encoding/hex: invalid byte: U+0000"%string
  /\ hex.Error (hex.InvalidByteError xe9)
     = ("encoding/hex: invalid byte: U+00E9 '"
        ++ string_of_bytes [xc3; xa9] ++ "'")%string.
Proof. repeat split. Qed.

Lemma hex_Decode_Encode (src : bytes) :
  hex.Decode (hex.Encode src) = (src, None).
Proof.
  induction src as [|v rest IH]; [reflexivity|].
  cbn [hex.Encode].
  change (hex.Decode (?p :: ?q :: ?r))
    with (let a := hex.reverseHexTable p in
          let b := hex.reverseHexTable q in
          if 15 <? a then ([], Some (hex.InvalidByteError p))
          else if 15 <? b then ([], Some (hex.InvalidByteError q))
          else let '(out, err) := hex.Decode r in
               (byte_of_Z (Z.lor (Z.shiftl a 4) b) :: out, err)).
  rewrite IH. destruct v; reflexivity.
Qed.

Lemma hex_DecodeString_EncodeToString (src : bytes) :
  hex.DecodeString (hex.EncodeToString src) = (src, None).
Proof.
  unfold hex.DecodeString, hex.EncodeToString, bytes_of_string, string_of_bytes.
  rewrite list_byte_of_string_of_list_byte. apply hex_Decode_Encode.
Qed.

(** FIPS 180-4 test vectors. *)
Example sha256_abc :
  hex.EncodeToString (sha256.Sum256 (bytes_of_string "abc"))
  = "ba7816bf8f01cfea414140de5dae2223b00361a396177a9cb410ff61f20015ad"%string.
Proof. vm_compute. reflexivity. Qed.

Example sha256_two_blocks :
  hex.EncodeToString (sha256.Sum256 (bytes_of_string
    "abcdbcdecdefdefgefghfghighijhijkijkljklmklmnlmnomnopnopq"))
  = "248d6a61d20638b8e5c026930c3e6039a33ce45964ff2167f6ecedd419db06c1"%string.
Proof. vm_compute. reflexivity. Qed.

(** RFC 4231 (test case 2) and the usual PBKDF2-HMAC-SHA256 vectors. *)
Example hmac_sha256_jefe :
  hex.EncodeToString
    (hmac.MAC sha256_New (bytes_of_string "Jefe")
              (bytes_of_string "what do ya want for nothing?"))
  = "5bdcc146bf60754e6a042426089575c75a003f089d2739839dec58b964ec3843"%string.
Proof. vm_compute. reflexivity. Qed.

Example pbkdf2_sha256_iter1 :
  option_map hex.EncodeToString
    (pbkdf2.Key (bytes_of_string "password") (bytes_of_string "salt")
                1 32 sha256_New)
  = Some "120fb6cffcf8b32c43e7225256c4f837a86548c92ccc35480805987cb70be17b"%string.
Proof. vm_compute. reflexivity. Qed.

Example pbkdf2_sha256_iter3_len40 :
  option_map hex.EncodeToString
    (pbkdf2.Key (bytes_of_string "password") (bytes_of_string "salt")
                3 40 sha256_New)
  = Some ("ad35240ac683febfaf3cd49d845473fbbbaa2437f5f82d5a415ae00ac76c6bfc"
          ++ "cf9a9b8d6d2fe4a1")%string.
Proof. vm_compute. reflexivity. Qed.

(** The same vector, with a zero byte after the password. *)
Example pbkdf2_sha256_zero_padded_password :
  option_map hex.EncodeToString
    (pbkdf2.Key (bytes_of_string ("password" ++ String Ascii.zero ""))
                (bytes_of_string "salt") 3 40 sha256_New)
  = Some ("ad35240ac683febfaf3cd49d845473fbbbaa2437f5f82d5a415ae00ac76c6bfc"
          ++ "cf9a9b8d6d2fe4a1")%string.
Proof. vm_compute. reflexivity. Qed.

(** ** Facts about the library models *)

Lemma byte_to_Z_range (b : byte) : 0 <= byte_to_Z b < 256.
Proof.
  unfold byte_to_Z. pose proof (Byte.to_N_bounded b). lia.
Qed.

Lemma byte_to_Z_inj (a b : byte) : byte_to_Z a = byte_to_Z b -> a = b.
Proof.
  unfold byte_to_Z. intros H. apply N2Z.inj in H.
  pose proof (Byte.of_to_N a) as Ha. rewrite H, Byte.of_to_N in Ha.
  congruence.
Qed.

Lemma lor_byte_range (v w : Z) :
  0 <= v < 256 -> 0 <= w < 256 -> 0 <= Z.lor v w < 256.
Proof.
  intros Hv Hw.
  assert (Hn : 0 <= Z.lor v w) by (apply Z.lor_nonneg; lia).
  split; [exact Hn|].
  destruct (Z.eq_dec (Z.lor v w) 0) as [->|Hz]; [lia|].
  change 256 with (2 ^ 8). apply Z.log2_lt_pow2; [lia|].
  rewrite Z.log2_lor by lia.
  apply Z.max_lub_lt.
  - destruct (Z.eq_dec v 0) as [->|]; [reflexivity|].
    apply Z.log2_lt_pow2; [lia|]. change (2 ^ 8) with 256. lia.
  - destruct (Z.eq_dec w 0) as [->|]; [reflexivity|].
    apply Z.log2_lt_pow2; [lia|]. change (2 ^ 8) with 256. lia.
Qed.

Lemma lxor_byte_range (a b : byte) :
  0 <= Z.lxor (byte_to_Z a) (byte_to_Z b) < 256.
Proof.
  pose proof (byte_to_Z_range a) as Ha. pose proof (byte_to_Z_range b) as Hb.
  assert (Hn : 0 <= Z.lxor (byte_to_Z a) (byte_to_Z b))
    by (apply Z.lxor_nonneg; lia).
  split; [exact Hn|].
  destruct (Z.eq_dec (Z.lxor (byte_to_Z a) (byte_to_Z b)) 0) as [->|Hz]; [lia|].
  change 256 with (2 ^ 8). apply Z.log2_lt_pow2; [lia|].
  eapply Z.le_lt_trans; [apply Z.log2_lxor; lia|].
  apply Z.max_lub_lt.
  - destruct (Z.eq_dec (byte_to_Z a) 0) as [->|]; [reflexivity|].
    apply Z.log2_lt_pow2; [lia|]. change (2 ^ 8) with 256. lia.
  - destruct (Z.eq_dec (byte_to_Z b) 0) as [->|]; [reflexivity|].
    apply Z.log2_lt_pow2; [lia|]. change (2 ^ 8) with 256. lia.
Qed.

Lemma or_xor_range (x y : bytes) (v : Z) :
  0 <= v < 256 -> 0 <= subtle.or_xor v x y < 256.
Proof.
  revert y v. induction x as [|a x IH]; intros [|b y] v Hv; cbn; try exact Hv.
  apply IH. apply lor_byte_range; [exact Hv|apply lxor_byte_range].
Qed.

Lemma or_xor_zero (x y : bytes) (v : Z) :
  List.length x = List.length y ->
  (subtle.or_xor v x y = 0 <-> v = 0 /\ x = y).
Proof.
  revert y v. induction x as [|a x IH]; intros [|b y] v Hlen;
    cbn in Hlen; try discriminate; cbn [subtle.or_xor].
  - tauto.
  - injection Hlen as Hlen. rewrite (IH y _ Hlen), Z.lor_eq_0_iff.
    split.
    + intros [[Hv Hx] Hxy]. apply Z.lxor_eq, byte_to_Z_inj in Hx.
      subst. tauto.
    + intros [Hv Hxy]. injection Hxy as -> ->.
      rewrite Z.lxor_nilpotent. tauto.
Qed.

Lemma ConstantTimeByteEq_zero (v : Z) :
  0 <= v < 256 -> (subtle.ConstantTimeByteEq v 0 = 1 <-> v = 0).
Proof.
  intros Hv. unfold subtle.ConstantTimeByteEq, sha256.u32.
  rewrite Z.lxor_0_r, Z.shiftr_div_pow2 by lia.
  destruct (Z.eq_dec v 0) as [->|Hz].
  - split; [reflexivity|]. intros _. reflexivity.
  - rewrite (Z.mod_small (v - 1)) by lia.
    rewrite Z.div_small by lia. split; [discriminate|contradiction].
Qed.

(** [hmac.Equal] decides equality of the two byte sequences. *)
Lemma hmac_Equal_true (x y : bytes) : hmac.Equal x y = true <-> x = y.
Proof.
  unfold hmac.Equal, subtle.ConstantTimeCompare.
  destruct (Nat.eqb (List.length x) (List.length y)) eqn:Hlen; cbn [negb].
  - apply Nat.eqb_eq in Hlen. rewrite Z.eqb_eq.
    rewrite ConstantTimeByteEq_zero by (apply or_xor_range; lia).
    rewrite (or_xor_zero x y 0 Hlen). tauto.
  - apply Nat.eqb_neq in Hlen. split; [discriminate|].
    intros ->. contradiction.
Qed.

Lemma hmac_Equal_false (x y : bytes) : hmac.Equal x y = false <-> x <> y.
Proof.
  rewrite <- hmac_Equal_true. destruct (hmac.Equal x y); split;
    congruence.
Qed.

Lemma hmac_Equal_refl (x : bytes) : hmac.Equal x x = true.
Proof. apply hmac_Equal_true. reflexivity. Qed.

Lemma firstn_repeat_le {A} (x : A) (n m m' : nat) :
  (n <= m)%nat -> (n <= m')%nat ->
  firstn n (repeat x m) = firstn n (repeat x m').
Proof.
  revert m m'. induction n as [|n IH]; intros m m' Hm Hm'; [reflexivity|].
  destruct m as [|m]; [lia|]. destruct m' as [|m']; [lia|].
  cbn [repeat firstn]. f_equal. apply IH; lia.
Qed.

Lemma firstn_app_repeat_le {A} (x : A) (l : list A) (n m m' : nat) :
  (n <= List.length l + m)%nat -> (n <= List.length l + m')%nat ->
  firstn n (l ++ repeat x m) = firstn n (l ++ repeat x m').
Proof.
  revert n. induction l as [|a l IH]; intros n Hm Hm'; cbn in Hm, Hm'.
  - cbn [app]. apply firstn_repeat_le; assumption.
  - destruct n as [|n]; [reflexivity|]. cbn [app firstn]. f_equal.
    apply IH; lia.
Qed.

(** A key and the same key followed by a zero byte fill the same key
    block, as long as both fit in one block. *)
Lemma firstn_app_repeat_snoc (n : nat) (key : bytes) :
  (List.length key < n)%nat ->
  firstn n ((key ++ [x00]) ++ repeat x00 n) = firstn n (key ++ repeat x00 n).
Proof.
  intros Hn. rewrite <- app_assoc. cbn [app].
  change (x00 :: repeat x00 n) with (repeat x00 (S n)).
  apply firstn_app_repeat_le; lia.
Qed.

Lemma keyblock_snoc_zero (h : Hash) (key : bytes) :
  Z.of_nat (List.length key) < BlockSize h ->
  hmac.keyblock h (key ++ [x00]) = hmac.keyblock h key.
Proof.
  intros Hlen. unfold hmac.keyblock.
  rewrite length_app. cbn [List.length].
  destruct (BlockSize h <? Z.of_nat (List.length key + 1)) eqn:H1;
    [apply Z.ltb_lt in H1; lia|].
  destruct (BlockSize h <? Z.of_nat (List.length key)) eqn:H2;
    [apply Z.ltb_lt in H2; lia|].
  apply firstn_app_repeat_snoc. lia.
Qed.

Lemma MAC_snoc_zero (h : Hash) (key msg : bytes) :
  Z.of_nat (List.length key) < BlockSize h ->
  hmac.MAC h (key ++ [x00]) msg = hmac.MAC h key msg.
Proof.
  intros Hlen. unfold hmac.MAC, hmac.ipad, hmac.opad.
  rewrite keyblock_snoc_zero by exact Hlen. reflexivity.
Qed.

Lemma Pos_iter_ext {A} (f g : A -> A) (p : positive) :
  (forall x, f x = g x) -> forall x, Pos.iter f x p = Pos.iter g x p.
Proof.
  intros Hfg. induction p as [p IH|p IH|]; intros x; cbn [Pos.iter].
  - rewrite Hfg, !IH. reflexivity.
  - rewrite !IH. reflexivity.
  - apply Hfg.
Qed.

Lemma Z_iter_ext {A} (f g : A -> A) (n : Z) (x : A) :
  (forall y, f y = g y) -> Z.iter n f x = Z.iter n g x.
Proof.
  intros Hfg. destruct n; cbn [Z.iter]; [reflexivity| |reflexivity].
  apply Pos_iter_ext, Hfg.
Qed.

Lemma Z_iter_invariant {A} (Inv : A -> Prop) (f : A -> A) (n : Z) (x : A) :
  (forall y, Inv y -> Inv (f y)) -> Inv x -> Inv (Z.iter n f x).
Proof.
  intros Hf Hx. destruct n; cbn [Z.iter]; try exact Hx.
  apply Pos.iter_invariant; assumption.
Qed.

(** PBKDF2 over HMAC does not tell a password from the same password
    followed by a zero byte. *)
Lemma dk_snoc_zero (h : Hash) (password salt : bytes) (iter keyLen : Z) :
  Z.of_nat (List.length password) < BlockSize h ->
  pbkdf2.dk (password ++ [x00]) salt iter keyLen h
  = pbkdf2.dk password salt iter keyLen h.
Proof.
  intros Hlen. unfold pbkdf2.dk. f_equal. apply flat_map_ext. intros block.
  unfold pbkdf2.T. rewrite MAC_snoc_zero by exact Hlen. f_equal.
  apply Z_iter_ext. intros TU. unfold pbkdf2.step.
  rewrite MAC_snoc_zero by exact Hlen. reflexivity.
Qed.

Lemma Key_nonneg (password salt : bytes) (iter keyLen : Z) (h : Hash) :
  0 <= keyLen ->
  pbkdf2.Key password salt iter keyLen h
  = Some (pbkdf2.dk password salt iter keyLen h).
Proof.
  intros Hk. unfold pbkdf2.Key.
  destruct (keyLen <? 0) eqn:E; [apply Z.ltb_lt in E; lia|reflexivity].
Qed.

Lemma Key_negative (password salt : bytes) (iter keyLen : Z) (h : Hash) :
  keyLen < 0 -> pbkdf2.Key password salt iter keyLen h = None.
Proof.
  intros Hk. unfold pbkdf2.Key.
  destruct (keyLen <? 0) eqn:E; [reflexivity|apply Z.ltb_ge in E; lia].
Qed.

(** *** The length of a derived key *)

Section KeyLength.

Variable h : Hash.
Hypothesis Size_pos : 0 < Size h.
Hypothesis Sum_length :
  forall data, List.length (Sum h data) = Z.to_nat (Size h).

Lemma xor_into_length (T U : bytes) :
  List.length (pbkdf2.xor_into T U) = List.length T.
Proof.
  revert U. induction T as [|t T IH]; intros [|u U]; cbn; congruence.
Qed.

Lemma T_length (password salt : bytes) (iter block : Z) :
  List.length (pbkdf2.T h password salt iter block) = Z.to_nat (Size h).
Proof.
  unfold pbkdf2.T.
  apply (Z_iter_invariant
           (fun TU => List.length (fst TU) = Z.to_nat (Size h))).
  - intros TU HTU. unfold pbkdf2.step. cbn [fst].
    rewrite xor_into_length. exact HTU.
  - cbn [fst]. unfold hmac.MAC. apply Sum_length.
Qed.

Lemma flat_map_T_length (password salt : bytes) (iter : Z) (l : list nat) :
  List.length
    (flat_map (fun block => pbkdf2.T h password salt iter (Z.of_nat block)) l)
  = (List.length l * Z.to_nat (Size h))%nat.
Proof.
  induction l as [|b l IH]; [reflexivity|].
  cbn [flat_map List.length]. rewrite length_app, T_length, IH. lia.
Qed.

Lemma dk_length (password salt : bytes) (iter keyLen : Z) :
  0 <= keyLen ->
  List.length (pbkdf2.dk password salt iter keyLen h) = Z.to_nat keyLen.
Proof.
  intros Hk. unfold pbkdf2.dk.
  rewrite length_firstn, flat_map_T_length, length_seq.
  apply Nat.min_l.
  rewrite Z.quot_div_nonneg by lia.
  pose proof (Z.div_mod (keyLen + Size h - 1) (Size h)) as Hdm.
  pose proof (Z.mod_pos_bound (keyLen + Size h - 1) (Size h) Size_pos).
  assert (Hq : 0 <= (keyLen + Size h - 1) / Size h)
    by (apply Z.div_pos; lia).
  nia.
Qed.

End KeyLength.

Lemma Sum256_length (data : bytes) :
  List.length (sha256.Sum256 data) = 32%nat.
Proof.
  unfold sha256.Sum256. rewrite !length_app, !be_bytes_length. reflexivity.
Qed.

Lemma dk_sha256_length (password salt : bytes) (iter keyLen : Z) :
  0 <= keyLen ->
  List.length (pbkdf2.dk password salt iter keyLen sha256_New)
  = Z.to_nat keyLen.
Proof.
  apply dk_length; [reflexivity|]. intros data. apply Sum256_length.
Qed.

(** From here on a derived key is never unfolded. *)
#[global] Opaque pbkdf2.dk.

(** ** Rules of the handler logic *)

Lemma wp_Done {S A} (m : M S A) (Q : A -> Ctx S -> Prop) (c : Ctx S) :
  wp m Q c <-> exists a c', m c = Done a c' /\ Q a c'.
Proof.
  unfold wp. destruct (m c) as [|a c'].
  - split; [contradiction|]. intros (a & c' & H & _). discriminate.
  - split.
    + intros H. exists a, c'. split; [reflexivity|exact H].
    + intros (a0 & c0 & H & HQ). injection H as -> ->. exact HQ.
Qed.

Lemma wp_ret {S A} (a : A) (Q : A -> Ctx S -> Prop) (c : Ctx S) :
  Q a c -> wp (ret a) Q c.
Proof. intros H. exact H. Qed.

Lemma wp_bind {S A B} (m : M S A) (k : A -> M S B)
  (Q : B -> Ctx S -> Prop) (c : Ctx S) :
  wp m (fun a c' => wp (k a) Q c') c -> wp (bind m k) Q c.
Proof. unfold wp, bind. destruct (m c); intros H; exact H. Qed.

Lemma wp_mono {S A} (m : M S A) (Q Q' : A -> Ctx S -> Prop) (c : Ctx S) :
  (forall a c', Q a c' -> Q' a c') -> wp m Q c -> wp m Q' c.
Proof. unfold wp. intros HQ. destruct (m c); [tauto|apply HQ]. Qed.

Lemma wp_logInfo {S} (args : list string) (Q : unit -> Ctx S -> Prop) c :
  Q tt (mkCtx (st c) (w c) (log c ++ [Info args]) (audit c)) ->
  wp (logInfo args) Q c.
Proof. intros H. exact H. Qed.

Lemma wp_logError {S} (args : list string) (Q : unit -> Ctx S -> Prop) c :
  Q tt (mkCtx (st c) (w c) (log c ++ [Error args]) (audit c)) ->
  wp (logError args) Q c.
Proof. intros H. exact H. Qed.

Lemma wp_logPrintln {S} (args : list string) (Q : unit -> Ctx S -> Prop) c :
  Q tt (mkCtx (st c) (w c) (log c ++ [Println args]) (audit c)) ->
  wp (logPrintln args) Q c.
Proof. intros H. exact H. Qed.

Lemma wp_setAuditAction {S} (a : string) (Q : unit -> Ctx S -> Prop) c :
  Q tt (mkCtx (st c) (w c) (log c) (mkAudit a)) ->
  wp (setAuditAction a) Q c.
Proof. intros H. exact H. Qed.

Lemma wp_getState {S A} (f : S -> A) (Q : A -> Ctx S -> Prop) c :
  Q (f (st c)) c -> wp (getState f) Q c.
Proof. intros H. exact H. Qed.

Lemma wp_setState {S} (f : S -> S) (Q : unit -> Ctx S -> Prop) c :
  Q tt (mkCtx (f (st c)) (w c) (log c) (audit c)) ->
  wp (setState f) Q c.
Proof. intros H. exact H. Qed.

Lemma wp_onWriter {S A} (f : ResponseWriter -> A * ResponseWriter)
  (Q : A -> Ctx S -> Prop) c :
  Q (fst (f (w c))) (mkCtx (st c) (snd (f (w c))) (log c) (audit c)) ->
  wp (onWriter f) Q c.
Proof. unfold wp, onWriter. destruct (f (w c)). intros H. exact H. Qed.

Lemma wp_must {S A} (o : option A) (a : A) (Q : A -> Ctx S -> Prop) c :
  o = Some a -> Q a c -> wp (must o) Q c.
Proof. intros -> H. exact H. Qed.

(** One step of a handler, read backwards from the postcondition; the
    context is kept in normal form along the way. *)
Ltac wp_step :=
  cbn beta;
  lazymatch goal with
  | |- wp (bind _ _) _ _ => apply wp_bind
  | |- wp (ret _) _ _ => apply wp_ret
  | |- wp (logInfo _) _ _ => apply wp_logInfo
  | |- wp (logError _) _ _ => apply wp_logError
  | |- wp (logPrintln _) _ _ => apply wp_logPrintln
  | |- wp (setAuditAction _) _ _ => apply wp_setAuditAction
  | |- wp (getState _) _ _ => apply wp_getState
  | |- wp (setState _) _ _ => apply wp_setState
  | |- wp (onWriter _) _ _ => apply wp_onWriter
  end;
  cbn beta iota delta [st w log audit].

(** ** The login handler and its decision *)

Section LoginFacts.

Variable helpers : net.Helpers.
Variable encode : reqres.AdminLoginResponse -> bytes.
Variable jwt : string -> string.
Hypothesis Hmarshal : marshals helpers encode.
Hypothesis Hsign : signs helpers jwt.

(** [routeAdminLogin] refines [Login]: on a request that carries
  [password] it returns, sends and leaves behind what [Login]
  decides. *)
Lemma routeAdminLogin_Login (r : Request) (password : string) (s : state.t) :
submits helpers r password ->
answered (routeAdminLogin helpers r (start s))
         (fst (fst (Login jwt s password)))
         (snd (fst (Login jwt s password)))
         (encode (snd (Login jwt s password)))
         s.
Proof.
intros (body & Hread & Hparse).
unfold routeAdminLogin, Login, answered, bind, ret, logInfo, logError,
  setAuditAction, onWriter, getState, must, start, candidate,
  ServerFaultResponse, UnauthorizedResponse, TokenResponse.
cbn [st w log audit]. rewrite Hread. cbn [st w log audit].
rewrite Hparse. cbn [st w log audit reqres.Password].
destruct (hex.DecodeString (state.Salt (state.AdminCredentials s)))
  as [salt [e|]].
{ cbn. rewrite Hmarshal. cbn. eexists. repeat split. }
rewrite Key_nonneg by lia.
destruct (hex.DecodeString (state.PasswordHash (state.AdminCredentials s)))
  as [stored [e|]].
{ cbn. rewrite Hmarshal. cbn. eexists. repeat split. }
destruct (hmac.Equal _ stored); cbn [negb].
2:{ cbn. rewrite Hmarshal. cbn. eexists. repeat split. }
cbn [st w log audit fst snd].
destruct (String.eqb (state.AdminToken s) "") eqn:Htok.
{ cbn. rewrite Hmarshal. cbn. eexists. repeat split. }
apply String.eqb_neq in Htok.
destruct (Hsign (state.AdminToken s) fresh_writer Htok) as [Hjwt Hne].
cbn [st w log audit]. rewrite Hjwt. cbn [st w log audit].
apply String.eqb_neq in Hne. rewrite Hne.
cbn. rewrite Hmarshal. cbn. eexists. repeat split.
Qed.

(** The decision table of [Login]. *)
Lemma Login_cases (s : state.t) (password : string) :
(server_fault s password
 /\ snd (fst (Login jwt s password)) = StatusInternalServerError
 /\ snd (Login jwt s password) = ServerFaultResponse)
\/ (~ server_fault s password /\ password_matches s password
    /\ Login jwt s password
       = (None, StatusOK, TokenResponse (jwt (state.AdminToken s))))
\/ (~ server_fault s password /\ ~ password_matches s password
    /\ Login jwt s password
       = (Some "invalid password"%string, StatusUnauthorized,
          UnauthorizedResponse)).
Proof.
unfold Login, server_fault, salt_corrupt, hash_corrupt, password_matches.
destruct (hex.DecodeString (state.Salt (state.AdminCredentials s)))
  as [salt [e|]]; cbn [snd fst].
{ left. split; [left; discriminate|split; reflexivity]. }
destruct (hex.DecodeString (state.PasswordHash (state.AdminCredentials s)))
  as [stored [e|]]; cbn [snd fst].
{ left. split; [right; left; discriminate|split; reflexivity]. }
destruct (hmac.Equal (candidate password salt) stored) eqn:Heq.
- apply hmac_Equal_true in Heq.
  assert (Hm : exists salt0 stored0 : bytes,
             (salt, @None hex.DecodeError) = (salt0, None)
             /\ (stored, @None hex.DecodeError) = (stored0, None)
             /\ candidate password salt0 = stored0).
  { exists salt, stored. split; [reflexivity|]. split; [reflexivity|].
    exact Heq. }
  destruct (String.eqb (state.AdminToken s) "") eqn:Htok.
  + apply String.eqb_eq in Htok. left.
    split; [right; right; split; [exact Hm|exact Htok]|].
    split; reflexivity.
  + apply String.eqb_neq in Htok. right; left.
    split; [|split; [exact Hm|reflexivity]].
    intros [H|[H|[_ H]]];
      [apply H; reflexivity|apply H; reflexivity|exact (Htok H)].
- apply hmac_Equal_false in Heq. right; right.
  assert (Hn : ~ exists salt0 stored0 : bytes,
             (salt, @None hex.DecodeError) = (salt0, None)
             /\ (stored, @None hex.DecodeError) = (stored0, None)
             /\ candidate password salt0 = stored0).
  { intros (salt0 & stored0 & H1 & H2 & H3).
    injection H1 as <-. injection H2 as <-. exact (Heq H3). }
  split; [|split; [exact Hn|reflexivity]].
  intros [H|[H|[H _]]];
    [apply H; reflexivity|apply H; reflexivity|exact (Hn H)].
Qed.

End LoginFacts.

(** ** The login handler reads the state and never writes it *)

(** Symbolic execution of a handler whose library calls do not panic:
    every result of a helper and every test is split into its cases. *)
Ltac wp_run :=
  repeat first
    [ wp_step
    | lazymatch goal with
      | |- wp (must (pbkdf2.Key _ _ _ 32 _)) _ _ =>
          eapply wp_must; [apply Key_nonneg; lia|]
      | |- wp (match ?x with _ => _ end) _ _ => destruct x eqn:?
      | |- wp (if ?b then _ else _) _ _ => destruct b eqn:?
      end ].

Lemma routeAdminLogin_reads_only (helpers : net.Helpers) (r : Request)
  (c : Ctx state.t) :
  wp (routeAdminLogin helpers r) (fun _ c' => st c' = st c) c.
Proof.
  unfold routeAdminLogin. wp_run; reflexivity.
Qed.

(** ** The double satisfies what the theorems ask of the helpers *)

Lemma double_marshals : marshals double render.
Proof. intros res wr. reflexivity. Qed.

Lemma double_signs : signs double sign.
Proof.
  intros adminToken wr _. split; [reflexivity|].
  unfold sign. cbn [String.append]. discriminate.
Qed.

Lemma double_submits (password : string) :
  submits double (login_request password) password.
Proof.
  exists (bytes_of_string password). split; [reflexivity|].
  cbn [double net.HandleRequest]. unfold string_of_bytes, bytes_of_string.
  rewrite string_of_list_byte_of_string. reflexivity.
Qed.

(** ** What a run determines *)

Lemma answered_responded {S A} (res : Res S A) ret code body s :
  answered res ret code body s -> responded res code body.
Proof.
  intros (c' & Hres & _ & Hst & Hw). exists ret, c'. repeat split; assumption.
Qed.

Lemma answered_responded_inv {S A} (res : Res S A) ret code body s code' body' :
  answered res ret code body s -> responded res code' body' ->
  code' = code /\ body' = body.
Proof.
  intros (c' & Hres & _ & Hst & Hw) (a & c'' & Hres' & Hst' & Hw').
  rewrite Hres in Hres'. injection Hres' as <- <-.
  rewrite Hst in Hst'. injection Hst' as <-. split; congruence.
Qed.

(** ** C10: the login handler leaves the process state alone *)

(** C10. Whatever the helpers answer and whatever the request, the login
    handler returns (it does not panic) and the process state after the
    call is the state before it: the stored admin credential record and
    the admin token are the ones found at the start. *)
Theorem login_never_mutates_state
  (helpers : net.Helpers) (r : Request) (c : Ctx state.t) :
  exists ret c',
    routeAdminLogin helpers r c = Done ret c'
    /\ st c' = st c
    /\ state.AdminCredentials (st c') = state.AdminCredentials (st c)
    /\ state.AdminToken (st c') = state.AdminToken (st c).
Proof.
  pose proof (routeAdminLogin_reads_only helpers r c) as H.
  apply wp_Done in H. destruct H as (ret & c' & Hrun & Hst).
  exists ret, c'. rewrite Hst. repeat split. exact Hrun.
Qed.

(** ** C4: server faults of the login *)

Section ServerFault.

Variable helpers : net.Helpers.
Variable encode : reqres.AdminLoginResponse -> bytes.
Variable jwt : string -> string.

(** C4. For a request that carries a password, with helpers that marshal
  and sign, the login answers [500] with the [server_fault] code
  exactly when the stored salt or the stored password hash fails hex
  decoding, or the password matches and the admin token is empty; in
  these cases the body is the marshalled [server_fault] response, the
  same whatever the decoding error was, and the answer is not [401]. *)
Theorem login_server_fault_iff (r : Request) (password : string) (s : state.t) :
marshals helpers encode -> signs helpers jwt ->
submits helpers r password ->
(server_fault s password ->
 responded (routeAdminLogin helpers r (start s))
           StatusInternalServerError (encode ServerFaultResponse))
/\ (forall body,
       responded (routeAdminLogin helpers r (start s))
                 StatusInternalServerError body ->
       server_fault s password /\ body = encode ServerFaultResponse)
/\ (server_fault s password ->
    forall body,
      ~ responded (routeAdminLogin helpers r (start s))
                  StatusUnauthorized body)
/\ reqres.Err ServerFaultResponse = reqres.ErrServerFault.
Proof.
intros Hmarshal Hsign Hsub.
pose proof (routeAdminLogin_Login helpers encode jwt Hmarshal Hsign
              r password s Hsub) as Hrun.
destruct (Login_cases jwt s password)
  as [(Hf & Hcode & Hresp)|[(Hnf & _ & HL)|(Hnf & _ & HL)]].
- rewrite Hcode, Hresp in Hrun. repeat split.
  + intros _. exact (answered_responded _ _ _ _ _ Hrun).
  + exact Hf.
  + destruct (answered_responded_inv _ _ _ _ _ _ _ Hrun H) as [_ Hb].
    exact Hb.
  + intros _ body Hr.
    destruct (answered_responded_inv _ _ _ _ _ _ _ Hrun Hr) as [Hc _].
    discriminate Hc.
- rewrite HL in Hrun. cbn [fst snd] in Hrun. repeat split.
  + intros Hf. contradiction.
  + destruct (answered_responded_inv _ _ _ _ _ _ _ Hrun H) as [Hc _].
    discriminate Hc.
  + destruct (answered_responded_inv _ _ _ _ _ _ _ Hrun H) as [Hc _].
    discriminate Hc.
  + intros Hf. contradiction.
- rewrite HL in Hrun. cbn [fst snd] in Hrun. repeat split.
  + intros Hf. contradiction.
  + destruct (answered_responded_inv _ _ _ _ _ _ _ Hrun H) as [Hc _].
    discriminate Hc.
  + destruct (answered_responded_inv _ _ _ _ _ _ _ Hrun H) as [Hc _].
    discriminate Hc.
  + intros Hf. contradiction.
Qed.

End ServerFault.

Lemma login_server_fault_witness :
  (server_fault corrupt_state "pw" ->
   responded (routeAdminLogin double (login_request "pw") (start corrupt_state))
             StatusInternalServerError (render ServerFaultResponse))
  /\ (forall body,
         responded (routeAdminLogin double (login_request "pw")
                                    (start corrupt_state))
                   StatusInternalServerError body ->
         server_fault corrupt_state "pw" /\ body = render ServerFaultResponse)
  /\ (server_fault corrupt_state "pw" ->
      forall body,
        ~ responded (routeAdminLogin double (login_request "pw")
                                     (start corrupt_state))
                    StatusUnauthorized body)
  /\ reqres.Err ServerFaultResponse = reqres.ErrServerFault.
Proof.
  exact (login_server_fault_iff double render sign (login_request "pw") "pw"
           corrupt_state double_marshals double_signs (double_submits "pw")).
Defined.

(** ** C3: which passwords the login accepts *)

(** The decision on a state whose credential record holds the hex
    encoding of [stored] and of [salt]. *)
Lemma Login_hex (jwt : string -> string) (s : state.t)
  (P' : string) (stored salt : bytes) :
  state.AdminCredentials s
  = state.mkCredentials (hex.EncodeToString stored)
                        (hex.EncodeToString salt) ->
  Login jwt s P'
  = if hmac.Equal (candidate P' salt) stored then
      if String.eqb (state.AdminToken s) "" then
        (Some "admin token not set"%string, StatusInternalServerError,
         ServerFaultResponse)
      else (None, StatusOK, TokenResponse (jwt (state.AdminToken s)))
    else (Some "invalid password"%string, StatusUnauthorized,
          UnauthorizedResponse).
Proof.
  intros Hcreds. unfold Login. rewrite Hcreds.
  cbn [state.Salt state.PasswordHash].
  rewrite !hex_DecodeString_EncodeToString. reflexivity.
Qed.

Lemma Login_stored (jwt : string -> string) (s : state.t)
  (P P' : string) (salt : bytes) :
  state.AdminCredentials s
  = state.mkCredentials (hex.EncodeToString (candidate P salt))
                        (hex.EncodeToString salt) ->
  Login jwt s P'
  = if hmac.Equal (candidate P' salt) (candidate P salt) then
      if String.eqb (state.AdminToken s) "" then
        (Some "admin token not set"%string, StatusInternalServerError,
         ServerFaultResponse)
      else (None, StatusOK, TokenResponse (jwt (state.AdminToken s)))
    else (Some "invalid password"%string, StatusUnauthorized,
          UnauthorizedResponse).
Proof. apply Login_hex. Qed.

Section Accepts.

Variable helpers : net.Helpers.
Variable encode : reqres.AdminLoginResponse -> bytes.
Variable jwt : string -> string.

(** C3, amended. With a stored credential [(hash, salt)] where [hash] is
  the derived key of [P], and a non-empty admin token: a login with
  [P] answers [200] with the signed token; a login with [P'] answers
  [401] with the marshalled [unauthorized] response, the same for every
  rejected password, when the derived key of [P'] differs from the
  stored one; and a login with a [P'] whose derived key equals the
  stored one is answered like [P]. *)
Theorem login_accepts_matching_hash (s : state.t) (P : string) (salt : bytes) :
marshals helpers encode -> signs helpers jwt ->
state.AdminCredentials s
= state.mkCredentials (hex.EncodeToString (candidate P salt))
                      (hex.EncodeToString salt) ->
state.AdminToken s <> ""%string ->
(forall r, submits helpers r P ->
   answered (routeAdminLogin helpers r (start s))
            None StatusOK
            (encode (TokenResponse (jwt (state.AdminToken s)))) s)
/\ (forall r P', submits helpers r P' ->
      candidate P' salt <> candidate P salt ->
      answered (routeAdminLogin helpers r (start s))
               (Some "invalid password"%string) StatusUnauthorized
               (encode UnauthorizedResponse) s)
/\ (forall r P', submits helpers r P' ->
      candidate P' salt = candidate P salt ->
      answered (routeAdminLogin helpers r (start s))
               None StatusOK
               (encode (TokenResponse (jwt (state.AdminToken s)))) s)
/\ reqres.Err UnauthorizedResponse = reqres.ErrUnauthorized.
Proof.
intros Hmarshal Hsign Hcreds Htok.
apply String.eqb_neq in Htok.
assert (Hsame : forall r P', submits helpers r P' ->
          candidate P' salt = candidate P salt ->
          answered (routeAdminLogin helpers r (start s))
                   None StatusOK
                   (encode (TokenResponse (jwt (state.AdminToken s)))) s).
{ intros r P' Hsub Heq.
  pose proof (routeAdminLogin_Login helpers encode jwt Hmarshal Hsign
                r P' s Hsub) as Hrun.
  rewrite (Login_stored jwt s P P' salt Hcreds) in Hrun.
  apply hmac_Equal_true in Heq. rewrite Heq, Htok in Hrun. exact Hrun. }
split; [|split; [|split; [exact Hsame|reflexivity]]].
- intros r Hsub. apply (Hsame r P Hsub). reflexivity.
- intros r P' Hsub Hne.
  pose proof (routeAdminLogin_Login helpers encode jwt Hmarshal Hsign
                r P' s Hsub) as Hrun.
  rewrite (Login_stored jwt s P P' salt Hcreds) in Hrun.
  apply hmac_Equal_false in Hne. rewrite Hne in Hrun. exact Hrun.
Qed.

End Accepts.

Lemma login_accepts_matching_hash_witness :
  (forall r, submits double r "hunter2" ->
     answered (routeAdminLogin double r (start example_state))
              None StatusOK
              (render (TokenResponse (sign (state.AdminToken example_state))))
              example_state)
  /\ (forall r P', submits double r P' ->
        candidate P' example_salt <> candidate "hunter2" example_salt ->
        answered (routeAdminLogin double r (start example_state))
                 (Some "invalid password"%string) StatusUnauthorized
                 (render UnauthorizedResponse) example_state)
  /\ (forall r P', submits double r P' ->
        candidate P' example_salt = candidate "hunter2" example_salt ->
        answered (routeAdminLogin double r (start example_state))
                 None StatusOK
                 (render (TokenResponse (sign (state.AdminToken example_state))))
                 example_state)
  /\ reqres.Err UnauthorizedResponse = reqres.ErrUnauthorized.
Proof.
  apply (login_accepts_matching_hash double render sign example_state
           "hunter2" example_salt double_marshals double_signs).
  - reflexivity.
  - discriminate.
Defined.

Lemma candidate_hunter2_nul :
  candidate hunter2_nul example_salt = candidate "hunter2" example_salt.
Proof.
  unfold candidate.
  change (bytes_of_string hunter2_nul)
    with (bytes_of_string "hunter2" ++ [x00]).
  apply dk_snoc_zero. reflexivity.
Qed.

(** C3, as stated, fails: the stored credential is the one of
    ["hunter2"], the submitted password is a different string (["hunter2"]
    followed by a zero byte), and the login answers [200] with a signed
    token instead of [401]. *)
Lemma login_accepts_zero_padded_password :
  hunter2_nul <> "hunter2"%string
  /\ state.PasswordHash (state.AdminCredentials example_state)
     = hex.EncodeToString (candidate "hunter2" example_salt)
  /\ answered (routeAdminLogin double (login_request hunter2_nul)
                               (start example_state))
              None StatusOK
              (render (TokenResponse (sign "spike.k"))) example_state
  /\ forall body,
       ~ responded (routeAdminLogin double (login_request hunter2_nul)
                                    (start example_state))
                   StatusUnauthorized body.
Proof.
  assert (Hrun : answered (routeAdminLogin double (login_request hunter2_nul)
                                           (start example_state))
                          None StatusOK
                          (render (TokenResponse (sign "spike.k")))
                          example_state).
  { pose proof (routeAdminLogin_Login double render sign double_marshals
                  double_signs (login_request hunter2_nul) hunter2_nul
                  example_state (double_submits hunter2_nul)) as Hrun.
    rewrite (Login_stored sign example_state "hunter2" hunter2_nul
               example_salt eq_refl) in Hrun.
    rewrite candidate_hunter2_nul, hmac_Equal_refl in Hrun. exact Hrun. }
  split; [discriminate|]. split; [reflexivity|]. split; [exact Hrun|].
  intros body Hr.
  destruct (answered_responded_inv _ _ _ _ _ _ _ Hrun Hr) as [Hc _].
  discriminate Hc.
Qed.

(** ** Bootstrap: [updateStateForInit] *)

Lemma updateStateForInit_run (environment : env.t) (password : string)
  (adminTokenBytes salt : bytes) (c : Ctx state.t) :
  0 <= env.ShaHashLength environment ->
  updateStateForInit environment password adminTokenBytes salt c
  = Done tt (mkCtx (bootstrapped environment password adminTokenBytes salt
                                 (st c))
                   (w c) (log c) (audit c)).
Proof.
  intros Hlen. unfold updateStateForInit, bind, must, setState.
  rewrite Key_nonneg by exact Hlen. reflexivity.
Qed.

Lemma updateStateForInit_panics (environment : env.t) (password : string)
  (adminTokenBytes salt : bytes) (c : Ctx state.t) :
  env.ShaHashLength environment < 0 ->
  updateStateForInit environment password adminTokenBytes salt c = Panic.
Proof.
  intros Hlen. unfold updateStateForInit, bind, must, setState.
  rewrite Key_negative by exact Hlen. reflexivity.
Qed.

(** ** [updateStateForInit] carries no guard *)

(** X22. [updateStateForInit] carries no guard of its own: for a hash
    length that is not negative, a second call after a first one returns
    normally, sends and logs nothing, and leaves the admin token and the
    credential record derived from the arguments of the second call,
    whatever the first call had stored; the root key is the one found
    before the first call. *)
Theorem init_twice_overwrites (environment : env.t)
  (password1 password2 : string)
  (adminTokenBytes1 adminTokenBytes2 salt1 salt2 : bytes) (c : Ctx state.t) :
  0 <= env.ShaHashLength environment ->
  exists c1 c2,
    updateStateForInit environment password1 adminTokenBytes1 salt1 c
    = Done tt c1
    /\ updateStateForInit environment password2 adminTokenBytes2 salt2 c1
       = Done tt c2
    /\ state.AdminToken (st c2)
       = ("spike." ++ string_of_bytes adminTokenBytes2)%string
    /\ state.AdminCredentials (st c2)
       = state.mkCredentials
           (hex.EncodeToString (bootstrap_hash environment password2 salt2))
           (hex.EncodeToString salt2)
    /\ state.RootKey (st c2) = state.RootKey (st c)
    /\ w c2 = w c /\ log c2 = log c.
Proof.
  intros Hlen. eexists. eexists.
  split; [apply updateStateForInit_run; exact Hlen|].
  split; [apply updateStateForInit_run; exact Hlen|].
  cbn [st w log audit]. repeat split.
Qed.

Lemma init_twice_overwrites_witness :
  exists c1 c2,
    updateStateForInit env_default "hunter2" [x41] example_salt
                       (start (state.mk "" (state.mkCredentials "" "") "k0"))
    = Done tt c1
    /\ updateStateForInit env_default "hunter2" [x42] example_salt c1
       = Done tt c2
    /\ state.AdminToken (st c2) = ("spike." ++ string_of_bytes [x42])%string
    /\ state.AdminCredentials (st c2)
       = state.mkCredentials
           (hex.EncodeToString
              (bootstrap_hash env_default "hunter2" example_salt))
           (hex.EncodeToString example_salt)
    /\ state.RootKey (st c2)
       = state.RootKey
           (st (start (state.mk "" (state.mkCredentials "" "") "k0")))
    /\ w c2 = w (start (state.mk "" (state.mkCredentials "" "") "k0"))
    /\ log c2 = log (start (state.mk "" (state.mkCredentials "" "") "k0")).
Proof.
  apply (init_twice_overwrites env_default "hunter2" "hunter2"
           [x41] [x42] example_salt example_salt).
  cbn. discriminate.
Defined.

(** ** C8: credentials written by the bootstrap decode *)

Lemma login_no_decode_fault (helpers : net.Helpers) (r : Request)
  (s : state.t) (wr : ResponseWriter) (a : AuditEntry) :
  snd (hex.DecodeString (state.Salt (state.AdminCredentials s))) = None ->
  snd (hex.DecodeString (state.PasswordHash (state.AdminCredentials s)))
  = None ->
  wp (routeAdminLogin helpers r) no_decode_fault (mkCtx s wr [] a).
Proof.
  intros Hsalt Hhash. unfold routeAdminLogin, no_decode_fault.
  wp_run;
    try (cbn [snd] in Hsalt; discriminate Hsalt);
    try (cbn [snd] in Hhash; discriminate Hhash);
    (split; [reflexivity|split; discriminate]).
Qed.

(** C8. For a hash length that is not negative, [updateStateForInit]
    returns and the credential record it wrote decodes: [hex.DecodeString]
    gives back the salt and the derived key without error, and a login
    on that state, whatever the helpers and the request, logs neither
    decoding problem and returns neither decoding error. *)
Theorem bootstrap_credentials_decode (environment : env.t) (password : string)
  (adminTokenBytes salt : bytes) (c : Ctx state.t) :
  0 <= env.ShaHashLength environment ->
  exists c',
    updateStateForInit environment password adminTokenBytes salt c
    = Done tt c'
    /\ hex.DecodeString (state.Salt (state.AdminCredentials (st c')))
       = (salt, None)
    /\ hex.DecodeString (state.PasswordHash (state.AdminCredentials (st c')))
       = (bootstrap_hash environment password salt, None)
    /\ forall helpers r wr a,
         wp (routeAdminLogin helpers r) no_decode_fault
            (mkCtx (st c') wr [] a).
Proof.
  intros Hlen. eexists.
  split; [apply updateStateForInit_run; exact Hlen|].
  cbn [st bootstrapped state.AdminCredentials state.Salt state.PasswordHash
       state.adminCredentials].
  split; [apply hex_DecodeString_EncodeToString|].
  split; [apply hex_DecodeString_EncodeToString|].
  intros helpers r wr a. apply login_no_decode_fault;
    cbn [st bootstrapped state.AdminCredentials state.Salt state.PasswordHash
         state.adminCredentials];
    rewrite hex_DecodeString_EncodeToString; reflexivity.
Qed.

Lemma bootstrap_credentials_decode_witness :
  exists c',
    updateStateForInit env_default "hunter2" [x41] example_salt
                       (start state.empty)
    = Done tt c'
    /\ hex.DecodeString (state.Salt (state.AdminCredentials (st c')))
       = (example_salt, None)
    /\ hex.DecodeString (state.PasswordHash (state.AdminCredentials (st c')))
       = (bootstrap_hash env_default "hunter2" example_salt, None)
    /\ forall helpers r wr a,
         wp (routeAdminLogin helpers r) no_decode_fault
            (mkCtx (st c') wr [] a).
Proof.
  apply (bootstrap_credentials_decode env_default "hunter2" [x41]
           example_salt (start state.empty)).
  cbn. discriminate.
Defined.

(** ** C2: the derivation of the bootstrap and the one of the login *)

(** When the environment holds the constants of the login handler, the
    bootstrap stores the key that the login derives. *)
Lemma bootstrap_login_agree (environment : env.t) (password : string)
  (salt : bytes) :
  env.Pbkdf2IterationCount environment = 600000 ->
  env.ShaHashLength environment = 32 ->
  bootstrap_hash environment password salt = candidate password salt.
Proof.
  intros Hiter Hlen. unfold bootstrap_hash, candidate.
  rewrite Hiter, Hlen. reflexivity.
Qed.

Lemma candidate_length (password : string) (salt : bytes) :
  List.length (candidate password salt) = 32%nat.
Proof. unfold candidate. rewrite dk_sha256_length by lia. reflexivity. Qed.

Lemma bootstrap_hash_length (environment : env.t) (password : string)
  (salt : bytes) :
  0 <= env.ShaHashLength environment ->
  List.length (bootstrap_hash environment password salt)
  = Z.to_nat (env.ShaHashLength environment).
Proof. intros Hlen. unfold bootstrap_hash. apply dk_sha256_length, Hlen. Qed.

(** When the environment holds another hash length, no password is
    accepted by the login after the bootstrap, the bootstrap password
    included. *)
Lemma bootstrap_login_disagree (environment : env.t) (password P' : string)
  (adminTokenBytes salt : bytes) (s : state.t) :
  0 <= env.ShaHashLength environment ->
  env.ShaHashLength environment <> 32 ->
  answered
    (routeAdminLogin double (login_request P')
       (start (bootstrapped environment password adminTokenBytes salt s)))
    (Some "invalid password"%string) StatusUnauthorized
    (render UnauthorizedResponse)
    (bootstrapped environment password adminTokenBytes salt s).
Proof.
  intros Hlen Hne.
  pose proof (routeAdminLogin_Login double render sign double_marshals
                double_signs (login_request P') P'
                (bootstrapped environment password adminTokenBytes salt s)
                (double_submits P')) as Hrun.
  rewrite (Login_hex sign
             (bootstrapped environment password adminTokenBytes salt s) P'
             (bootstrap_hash environment password salt) salt eq_refl)
    in Hrun.
  assert (Hdiff : candidate P' salt <> bootstrap_hash environment password salt).
  { intros Heq. apply (f_equal (@List.length byte)) in Heq.
    rewrite candidate_length, bootstrap_hash_length in Heq by exact Hlen.
    lia. }
  apply hmac_Equal_false in Hdiff. rewrite Hdiff in Hrun. exact Hrun.
Qed.

(** C2, on the code: after a bootstrap with the password ["hunter2"]
    under an environment whose hash length is 16, the stored key has 16
    bytes, the candidate of the login has 32, and the login with
    ["hunter2"] is answered [401]. *)
Theorem bootstrap_short_hash_login_rejects :
  exists c1,
    updateStateForInit env_short "hunter2" [x41] example_salt
                       (start state.empty)
    = Done tt c1
    /\ state.PasswordHash (state.AdminCredentials (st c1))
       = hex.EncodeToString (bootstrap_hash env_short "hunter2" example_salt)
    /\ List.length (bootstrap_hash env_short "hunter2" example_salt) = 16%nat
    /\ List.length (candidate "hunter2" example_salt) = 32%nat
    /\ answered (routeAdminLogin double (login_request "hunter2")
                                 (start (st c1)))
                (Some "invalid password"%string) StatusUnauthorized
                (render UnauthorizedResponse) (st c1).
Proof.
  eexists.
  split; [apply updateStateForInit_run; cbn; discriminate|].
  cbn [st]. split; [reflexivity|].
  split; [rewrite bootstrap_hash_length by (cbn; discriminate); reflexivity|].
  split; [apply candidate_length|].
  apply bootstrap_login_disagree; cbn; [discriminate|lia].
Qed.

(** ** The replicator on three Keepers *)

Example tick_three_keepers :
  let wd := poll.mkWorld (state.mk "" (state.mkCredentials "" "") "k1")
              [poll.mkKeeper true "" 0; poll.mkKeeper false "old" 0;
               poll.mkKeeper true "k0" 0] [] in
  map poll.held (poll.keepers (fst (poll.Tick [poll.TickerC] wd)))
  = ["k1"; "old"; "k1"]%string
  /\ map poll.held
       (poll.keepers
          (fst (poll.Tick [poll.TickerC; poll.KeeperUp 1; poll.TickerC] wd)))
     = ["k1"; "k1"; "k1"]%string.
Proof. split; reflexivity. Qed.

(** ** C7: a tick without root key *)

(** C7. On a tick where the root key store is empty the world is left as
it is: no Keeper is pushed to (no attempt is counted, no held key
changes), nothing is logged, the Nexus state is the same, and the loop
goes on with the events that follow. *)
Theorem tick_skips_empty_root_key (wd : poll.World) (rest : list poll.Event) :
  state.RootKey (poll.nexus wd) = ""%string ->
  poll.onTick wd = wd
  /\ poll.Tick (poll.TickerC :: rest) wd = poll.Tick rest wd.
Proof.
  intros Hkey.
  assert (H : poll.onTick wd = wd).
  { unfold poll.onTick. rewrite Hkey. reflexivity. }
  split; [exact H|]. cbn [poll.Tick]. rewrite H. reflexivity.
Qed.

Lemma tick_skips_empty_root_key_witness :
  poll.onTick (poll.mkWorld state.empty [poll.mkKeeper true "k0" 3] [])
  = poll.mkWorld state.empty [poll.mkKeeper true "k0" 3] []
  /\ poll.Tick [poll.TickerC; poll.CtxDone]
               (poll.mkWorld state.empty [poll.mkKeeper true "k0" 3] [])
     = poll.Tick [poll.CtxDone]
                 (poll.mkWorld state.empty [poll.mkKeeper true "k0" 3] []).
Proof.
  apply (tick_skips_empty_root_key
           (poll.mkWorld state.empty [poll.mkKeeper true "k0" 3] [])
           [poll.CtxDone]).
  reflexivity.
Defined.

(** ** C6: a Keeper that cannot be reached *)

Lemma onTick_key (wd : poll.World) :
  state.RootKey (poll.nexus wd) <> ""%string ->
  poll.nexus (poll.onTick wd) = poll.nexus wd
  /\ poll.keepers (poll.onTick wd)
     = map (poll.push (state.RootKey (poll.nexus wd))) (poll.keepers wd)
  /\ (forallb poll.reachable (poll.keepers wd) = false ->
      poll.journal (poll.onTick wd)
      = poll.journal wd ++
        [Println [""%string];
         Println ["Unable to update the cache: keeper unreachable"%string];
         Println ["Make sure SPIKE Keeper is up and running"%string];
         Println [""%string]])
  /\ (forallb poll.reachable (poll.keepers wd) = true ->
      poll.journal (poll.onTick wd)
      = poll.journal wd ++ [Println ["Successfully updated the cache"%string]]).
Proof.
  intros Hkey. apply String.eqb_neq in Hkey.
  unfold poll.onTick, poll.UpdateCache. rewrite Hkey.
  destruct (forallb poll.reachable (poll.keepers wd));
    cbn [poll.nexus poll.keepers poll.journal];
    repeat split; intros H; try discriminate H; reflexivity.
Qed.

Lemma set_reachable_nth (i : nat) (b : bool) (ks : list poll.Keeper) :
  nth_error (poll.set_reachable i b ks) i
  = option_map (fun k => poll.mkKeeper b (poll.held k) (poll.attempts k))
               (nth_error ks i).
Proof.
  revert i. induction ks as [|k ks IH]; intros [|i]; cbn; try reflexivity.
  apply IH.
Qed.

(** Whether the loop has returned depends on the events alone. *)
Lemma Tick_status (events : list poll.Event) (wd wd' : poll.World) :
  snd (poll.Tick events wd) = snd (poll.Tick events wd').
Proof.
  revert wd wd'. induction events as [|e rest IH]; intros wd wd';
    [reflexivity|].
  destruct e; cbn [poll.Tick]; try apply IH. reflexivity.
Qed.

(** C6. On a tick with a root key, whichever Keepers cannot be reached:
the loop goes on with the next event, and whether it later returns or
waits is what it would be had nothing failed; the Nexus state is left
alone; each Keeper is attempted once, a reachable one holds the key
afterwards and an unreachable one keeps what it held; a failure is
written to the log; and a Keeper that failed on this tick and is up at
the next one holds the key after the next tick. *)
Theorem tick_keeper_failure_is_local
  (wd : poll.World) (rest : list poll.Event) (key : string) :
  state.RootKey (poll.nexus wd) = key -> key <> ""%string ->
  poll.Tick (poll.TickerC :: rest) wd = poll.Tick rest (poll.onTick wd)
  /\ snd (poll.Tick (poll.TickerC :: rest) wd) = snd (poll.Tick rest wd)
  /\ poll.nexus (poll.onTick wd) = poll.nexus wd
  /\ (forall i k,
        nth_error (poll.keepers wd) i = Some k ->
        exists k',
          nth_error (poll.keepers (poll.onTick wd)) i = Some k'
          /\ poll.attempts k' = S (poll.attempts k)
          /\ poll.reachable k' = poll.reachable k
          /\ poll.held k' = if poll.reachable k then key else poll.held k)
  /\ (forallb poll.reachable (poll.keepers wd) = false ->
      In (Println ["Unable to update the cache: keeper unreachable"%string])
         (poll.journal (poll.onTick wd)))
  /\ (forall i k,
        nth_error (poll.keepers wd) i = Some k ->
        poll.reachable k = false ->
        exists k',
          nth_error
            (poll.keepers
               (fst (poll.Tick [poll.TickerC; poll.KeeperUp i; poll.TickerC]
                               wd))) i = Some k'
          /\ poll.held k' = key
          /\ poll.attempts k' = S (S (poll.attempts k))).
Proof.
  intros Hkey Hne. subst key.
  destruct (onTick_key wd Hne) as (Hnexus & Hkeepers & Hfail & _).
  split; [reflexivity|].
  split; [cbn [poll.Tick]; apply Tick_status|].
  split; [exact Hnexus|].
  assert (Hnth : forall i k,
            nth_error (poll.keepers wd) i = Some k ->
            nth_error (poll.keepers (poll.onTick wd)) i
            = Some (poll.push (state.RootKey (poll.nexus wd)) k)).
  { intros i k Hk. rewrite Hkeepers, nth_error_map, Hk. reflexivity. }
  split.
  { intros i k Hk. exists (poll.push (state.RootKey (poll.nexus wd)) k).
    split; [apply Hnth, Hk|].
    unfold poll.push. destruct (poll.reachable k); repeat split. }
  split.
  { intros Hdown. rewrite (Hfail Hdown). apply in_or_app. right.
    right. left. reflexivity. }
  intros i k Hk Hdown. cbn [poll.Tick fst].
  set (wd1 := poll.onTick wd).
  set (wd2 := poll.mkWorld (poll.nexus wd1)
                (poll.set_reachable i true (poll.keepers wd1))
                (poll.journal wd1)).
  assert (Hkey2 : state.RootKey (poll.nexus wd2) = state.RootKey (poll.nexus wd)).
  { unfold wd2, wd1. cbn [poll.nexus]. rewrite Hnexus. reflexivity. }
  assert (Hne2 : state.RootKey (poll.nexus wd2) <> ""%string)
    by (rewrite Hkey2; exact Hne).
  destruct (onTick_key wd2 Hne2) as (_ & Hkeepers2 & _).
  rewrite Hkeepers2, nth_error_map. unfold wd2 at 2. cbn [poll.keepers].
  rewrite set_reachable_nth. unfold wd1. rewrite (Hnth i k Hk).
  cbn [option_map]. eexists. split; [reflexivity|].
  rewrite Hkey2. unfold poll.push. rewrite Hdown.
  cbn [poll.reachable poll.held poll.attempts]. split; reflexivity.
Qed.

Lemma tick_keeper_failure_is_local_witness :
  let wd := poll.mkWorld (state.mk "" (state.mkCredentials "" "") "k1")
              [poll.mkKeeper true "" 0; poll.mkKeeper false "old" 0;
               poll.mkKeeper true "k0" 0] [] in
  poll.Tick [poll.TickerC; poll.CtxDone] wd
  = poll.Tick [poll.CtxDone] (poll.onTick wd)
  /\ snd (poll.Tick [poll.TickerC; poll.CtxDone] wd)
     = snd (poll.Tick [poll.CtxDone] wd)
  /\ poll.nexus (poll.onTick wd) = poll.nexus wd
  /\ (forall i k,
        nth_error (poll.keepers wd) i = Some k ->
        exists k',
          nth_error (poll.keepers (poll.onTick wd)) i = Some k'
          /\ poll.attempts k' = S (poll.attempts k)
          /\ poll.reachable k' = poll.reachable k
          /\ poll.held k'
             = if poll.reachable k then "k1"%string else poll.held k)
  /\ (forallb poll.reachable (poll.keepers wd) = false ->
      In (Println ["Unable to update the cache: keeper unreachable"%string])
         (poll.journal (poll.onTick wd)))
  /\ (forall i k,
        nth_error (poll.keepers wd) i = Some k ->
        poll.reachable k = false ->
        exists k',
          nth_error
            (poll.keepers
               (fst (poll.Tick [poll.TickerC; poll.KeeperUp i; poll.TickerC]
                               wd))) i = Some k'
          /\ poll.held k' = "k1"%string
          /\ poll.attempts k' = S (S (poll.attempts k))).
Proof.
  intros wd.
  apply (tick_keeper_failure_is_local wd [poll.CtxDone] "k1").
  - reflexivity.
  - discriminate.
Defined.

(** ** The Keeper-side read handler on two requests *)

Example routeShow_ok :
  option_map string_of_bytes
    (match keeper.routeShow keeper.double
             (mkRequest "GET" "/key" "" (bytes_of_string "{}"))
             (start (keeper.mkState "k1")) with
     | Done _ c => Some (written (w c))
     | Panic => None
     end)
  = Some "{rootKey:k1}"%string.
Proof. reflexivity. Qed.

Example routeShow_bad :
  match keeper.routeShow keeper.double
          (mkRequest "GET" "/key" "" (bytes_of_string "{"))
          (start (keeper.mkState "k1")) with
  | Done _ c => Some (w c)
  | Panic => None
  end
  = Some (mkWriter (Some StatusBadRequest) []).
Proof. reflexivity. Qed.

(** ** C9: what the Keeper answers to a read *)

(** C9. For a request whose body is read, with a [HandleRequestError]
that hands errors back: when the body fails to unmarshal the handler
answers [400] with an empty body, whatever root key is held, and leaves
the state alone; when it unmarshals the handler answers [200] with the
marshalled response that carries the root key currently held, the empty
string included, and leaves the state alone. *)
Theorem routeShow_answers (helpers : keeper.Helpers) (r : Request)
  (body : bytes) (s : keeper.State) :
  keeper.reads helpers r body -> keeper.handles_errors helpers ->
  (keeper.Unmarshal helpers body <> None ->
   answered (keeper.routeShow helpers r (start s)) tt StatusBadRequest [] s)
  /\ (keeper.Unmarshal helpers body = None ->
      forall md,
        keeper.Marshal helpers (reqres.mkRootKeyReadResponse (keeper.RootKey s))
        = (md, None) ->
        answered (keeper.routeShow helpers r (start s)) tt StatusOK md s).
Proof.
  intros Hread [Hnil Herr].
  unfold keeper.reads in Hread.
  split.
  - intros Hbad.
    destruct (keeper.Unmarshal helpers body) as [e|] eqn:Hun;
      [clear Hbad|contradiction].
    destruct (Herr e) as (e' & w' & Hhandle & Hw').
    unfold keeper.routeShow, answered, bind, ret, logPrintln, onWriter,
      getState, start.
    cbn [st w log audit]. rewrite Hread. cbn [st w log audit].
    rewrite Hun, Hhandle. cbn [st w log audit].
    eexists. split; [reflexivity|]. cbn [st w].
    destruct Hw' as [-> | ->]; repeat split.
  - intros Hun md Hmd.
    unfold keeper.routeShow, answered, bind, ret, logPrintln, onWriter,
      getState, start.
    cbn [st w log audit]. rewrite Hread. cbn [st w log audit].
    rewrite Hun, Hnil. cbn [st w log audit]. rewrite Hmd.
    cbn [st w log audit].
    eexists. split; [reflexivity|]. cbn [st w].
    unfold WriteString, Write, WriteHeader, fresh_writer, bytes_of_string,
      string_of_bytes.
    cbn [status written]. rewrite list_byte_of_string_of_list_byte.
    repeat split.
Qed.

Lemma routeShow_answers_witness :
  (keeper.Unmarshal keeper.double (bytes_of_string "{}") <> None ->
   answered (keeper.routeShow keeper.double
               (mkRequest "GET" "/key" "" (bytes_of_string "{}"))
               (start (keeper.mkState "")))
            tt StatusBadRequest [] (keeper.mkState ""))
  /\ (keeper.Unmarshal keeper.double (bytes_of_string "{}") = None ->
      forall md,
        keeper.Marshal keeper.double
          (reqres.mkRootKeyReadResponse (keeper.RootKey (keeper.mkState "")))
        = (md, None) ->
        answered (keeper.routeShow keeper.double
                    (mkRequest "GET" "/key" "" (bytes_of_string "{}"))
                    (start (keeper.mkState "")))
                 tt StatusOK md (keeper.mkState "")).
Proof.
  apply (routeShow_answers keeper.double
           (mkRequest "GET" "/key" "" (bytes_of_string "{}"))
           (bytes_of_string "{}") (keeper.mkState "")).
  - reflexivity.
  - split; [reflexivity|]. intros e. eexists. eexists.
    split; [reflexivity|]. right. reflexivity.
Defined.

(** ** C1: recovery by quorum *)

Lemma votes_disjoint (a b : string) (vs : list string) :
  a <> b ->
  (recovery.votes a vs + recovery.votes b vs <= List.length vs)%nat.
Proof.
  intros Hab. unfold recovery.votes.
  induction vs as [|v vs IH]; [reflexivity|].
  cbn [count_occ List.length].
  destruct (string_dec v a) as [Ha|Ha], (string_dec v b) as [Hb|Hb];
    try lia.
  exfalso. apply Hab. congruence.
Qed.

Lemma values_length (rs : list recovery.Response) :
  (List.length (recovery.values rs) <= List.length rs)%nat.
Proof.
  unfold recovery.values. rewrite length_map. apply filter_length_le.
Qed.

Lemma threshold_majority (N : nat) : (N < 2 * recovery.threshold N)%nat.
Proof.
  unfold recovery.threshold.
  pose proof (Nat.div_mod_eq N 2) as H.
  pose proof (Nat.mod_upper_bound N 2). lia.
Qed.

(** C1. With [N] configured Keepers and the threshold
[T = floor(N/2) + 1], [Recover] returns the key [K] exactly when at
least [T] successful non-empty responses carry [K], and fails exactly
when no value is carried by [T] of them; with three Keepers, the
responses [A, A, B] give [A], the responses [A, B, C] fail, and the
responses [A], empty, error fail. *)
Theorem recover_quorum_exact :
  (forall rs K,
     recovery.Recover rs = Some K
     <-> (recovery.threshold (List.length rs)
          <= recovery.votes K (recovery.values rs))%nat)
  /\ (forall rs,
        recovery.Recover rs = None
        <-> forall K,
              (recovery.votes K (recovery.values rs)
               < recovery.threshold (List.length rs))%nat)
  /\ recovery.threshold 3 = 2%nat
  /\ recovery.Recover
       [recovery.mkResponse "A" None; recovery.mkResponse "A" None;
        recovery.mkResponse "B" None] = Some "A"%string
  /\ recovery.Recover
       [recovery.mkResponse "A" None; recovery.mkResponse "B" None;
        recovery.mkResponse "C" None] = None
  /\ recovery.Recover
       [recovery.mkResponse "A" None; recovery.mkResponse "" None;
        recovery.mkResponse "" (Some "connection refused"%string)] = None.
Proof.
  assert (Hiff : forall rs K,
     recovery.Recover rs = Some K
     <-> (recovery.threshold (List.length rs)
          <= recovery.votes K (recovery.values rs))%nat).
  { intros rs K. unfold recovery.Recover. split.
    - intros H. apply find_some in H. destruct H as [_ H].
      apply Nat.leb_le in H. exact H.
    - intros HK.
      destruct (find _ (recovery.values rs)) as [K'|] eqn:Hfind.
      + apply find_some in Hfind. destruct Hfind as [_ HK'].
        apply Nat.leb_le in HK'.
        destruct (string_dec K K') as [->|Hne]; [reflexivity|].
        pose proof (votes_disjoint K K' (recovery.values rs) Hne).
        pose proof (values_length rs).
        pose proof (threshold_majority (List.length rs)). lia.
      + assert (Hin : In K (recovery.values rs)).
        { apply (count_occ_In string_dec).
          unfold recovery.votes, recovery.threshold in HK. lia. }
        pose proof (find_none _ _ Hfind K Hin) as Hno. cbn beta in Hno.
        apply Nat.leb_gt in Hno. lia. }
  split; [exact Hiff|].
  split.
  { intros rs. split.
    - intros Hnone K.
      destruct (Nat.lt_ge_cases (recovery.votes K (recovery.values rs))
                  (recovery.threshold (List.length rs))) as [Hlt|Hge];
        [exact Hlt|].
      apply Hiff in Hge. congruence.
    - intros Hall.
      destruct (recovery.Recover rs) as [K|] eqn:HR; [|reflexivity].
      apply Hiff in HR. specialize (Hall K). lia. }
  repeat split.
Qed.

(** * Part III: further properties of the handlers *)

(** ** The login handler: audit, bad input, errors and statuses *)

(** X1. Every login attempt, whatever the helpers answer and whatever
    its outcome, returns with the audit action set to ["login"] and with
    the request line as the first line it added to the log. *)
Theorem login_always_audited
  (helpers : net.Helpers) (r : Request) (c : Ctx state.t) :
  exists ret c' tail,
    routeAdminLogin helpers r c = Done ret c'
    /\ audit c' = mkAudit "login"
    /\ log c' = log c ++ request_line r :: tail.
Proof.
  assert (H : wp (routeAdminLogin helpers r)
                (fun _ c' => audit c' = mkAudit "login"
                             /\ exists tail,
                                  log c' = log c ++ request_line r :: tail) c).
  { unfold routeAdminLogin, request_line. wp_run;
      (split; [reflexivity|]);
      repeat rewrite <- app_assoc; cbn [app]; eexists; reflexivity. }
  apply wp_Done in H. destruct H as (ret & c' & Hrun & Haudit & tail & Hlog).
  exists ret, c', tail. repeat split; assumption.
Qed.

(** X2. When the body of the request cannot be read, or cannot be
    parsed, the login returns the corresponding error without looking at
    the stored credentials: what it returns, sends and logs is the same
    on any two states. *)
Theorem login_bad_input_ignores_state
  (helpers : net.Helpers) (r : Request) (s1 s2 : state.t)
  (wr : ResponseWriter) (lg : list LogEntry) (a : AuditEntry) :
  (fst (net.ReadRequestBody helpers r wr) = None
   \/ exists body,
        fst (net.ReadRequestBody helpers r wr) = Some body
        /\ fst (net.HandleRequest helpers body
                  (snd (net.ReadRequestBody helpers r wr))
                  (reqres.mkAdminLoginResponse "" reqres.ErrBadInput))
           = None) ->
  exists ret w' lg',
    routeAdminLogin helpers r (mkCtx s1 wr lg a)
    = Done ret (mkCtx s1 w' lg' (mkAudit "login"))
    /\ routeAdminLogin helpers r (mkCtx s2 wr lg a)
       = Done ret (mkCtx s2 w' lg' (mkAudit "login"))
    /\ (ret = Some "failed to read request body"%string
        \/ ret = Some "failed to parse request body"%string).
Proof.
  intros Hbad.
  unfold routeAdminLogin, bind, ret, logInfo, setAuditAction, onWriter.
  cbn [st w log audit].
  destruct (net.ReadRequestBody helpers r wr) as [[body|] w1];
    cbn [fst snd] in Hbad; cbn [st w log audit].
  - destruct Hbad as [Hbad|(body' & Hbody & Hparse)]; [discriminate Hbad|].
    injection Hbody as <-.
    destruct (net.HandleRequest helpers body w1 _) as [[request|] w2];
      cbn [fst] in Hparse; [discriminate Hparse|].
    cbn [st w log audit]. eexists. eexists. eexists.
    split; [reflexivity|]. split; [reflexivity|]. right. reflexivity.
  - eexists. eexists. eexists.
    split; [reflexivity|]. split; [reflexivity|]. left. reflexivity.
Qed.

Lemma login_bad_input_ignores_state_witness :
  exists ret w' lg',
    routeAdminLogin unreadable (login_request "pw")
                    (mkCtx corrupt_state fresh_writer [] (mkAudit ""))
    = Done ret (mkCtx corrupt_state w' lg' (mkAudit "login"))
    /\ routeAdminLogin unreadable (login_request "pw")
                       (mkCtx example_state fresh_writer [] (mkAudit ""))
       = Done ret (mkCtx example_state w' lg' (mkAudit "login"))
    /\ (ret = Some "failed to read request body"%string
        \/ ret = Some "failed to parse request body"%string).
Proof.
  apply (login_bad_input_ignores_state unreadable (login_request "pw")
           corrupt_state example_state fresh_writer [] (mkAudit "")).
  left. reflexivity.
Defined.

Section LoginRuns.

Variable helpers : net.Helpers.
Variable encode : reqres.AdminLoginResponse -> bytes.
Variable jwt : string -> string.

(** The whole outcome of [routeAdminLogin] on a request that carries
    [password]: the error, the state, the response and the log. *)
Lemma routeAdminLogin_run (r : Request) (password : string) (s : state.t) :
  marshals helpers encode -> signs helpers jwt ->
  submits helpers r password ->
  routeAdminLogin helpers r (start s)
  = Done (fst (fst (Login jwt s password)))
         (mkCtx s
            (mkWriter (Some (snd (fst (Login jwt s password))))
                      (encode (snd (Login jwt s password))))
            (login_log r s password)
            (mkAudit "login")).
Proof.
  intros Hmarshal Hsign (body & Hread & Hparse).
  unfold routeAdminLogin, Login, login_log, request_line, bind, ret, logInfo,
    logError, setAuditAction, onWriter, getState, must, start, candidate,
    ServerFaultResponse, UnauthorizedResponse, TokenResponse.
  cbn [st w log audit]. rewrite Hread. cbn [st w log audit].
  rewrite Hparse. cbn [st w log audit reqres.Password].
  destruct (hex.DecodeString (state.Salt (state.AdminCredentials s)))
    as [salt [e|]].
  { cbn. rewrite Hmarshal. reflexivity. }
  rewrite Key_nonneg by lia.
  destruct (hex.DecodeString (state.PasswordHash (state.AdminCredentials s)))
    as [stored [e|]].
  { cbn. rewrite Hmarshal. reflexivity. }
  destruct (hmac.Equal _ stored); cbn [negb].
  2:{ cbn. rewrite Hmarshal. reflexivity. }
  cbn [st w log audit fst snd].
  destruct (String.eqb (state.AdminToken s) "") eqn:Htok.
  { cbn. rewrite Hmarshal. reflexivity. }
  apply String.eqb_neq in Htok.
  destruct (Hsign (state.AdminToken s) fresh_writer Htok) as [Hjwt Hne].
  cbn [st w log audit]. rewrite Hjwt. cbn [st w log audit].
  apply String.eqb_neq in Hne. rewrite Hne.
  cbn. rewrite Hmarshal. reflexivity.
Qed.

(** X3. For a request that carries a password, with helpers that marshal
    and sign, the error that the login returns and the status it sends
    go together: [nil] with [200], ["invalid password"] with [401], and
    one of the three fault errors with [500]; no other status is
    sent. *)
Theorem login_error_matches_status
  (r : Request) (password : string) (s : state.t) :
  marshals helpers encode -> signs helpers jwt ->
  submits helpers r password ->
  exists ret code body,
    answered (routeAdminLogin helpers r (start s)) ret code body s
    /\ (ret = None <-> code = StatusOK)
    /\ (ret = Some "invalid password"%string <-> code = StatusUnauthorized)
    /\ (ret = Some "failed to decode salt"%string
        \/ ret = Some "failed to decode password hash"%string
        \/ ret = Some "admin token not set"%string
        <-> code = StatusInternalServerError)
    /\ (code = StatusOK \/ code = StatusUnauthorized
        \/ code = StatusInternalServerError).
Proof.
  intros Hmarshal Hsign Hsub.
  pose proof (routeAdminLogin_Login helpers encode jwt Hmarshal Hsign
                r password s Hsub) as Hrun.
  eexists. eexists. eexists. split; [exact Hrun|].
  unfold Login.
  destruct (hex.DecodeString (state.Salt (state.AdminCredentials s)))
    as [salt [e|]];
    [|destruct (hex.DecodeString
                  (state.PasswordHash (state.AdminCredentials s)))
        as [stored [e|]];
      [|destruct (hmac.Equal (candidate password salt) stored);
        [destruct (String.eqb (state.AdminToken s) "")|]]];
    cbn [fst snd];
    unfold StatusOK, StatusUnauthorized, StatusInternalServerError;
    repeat split; intros; try discriminate; try reflexivity;
    try (left; reflexivity); try (right; left; reflexivity);
    try (right; right; reflexivity);
    repeat match goal with
           | H : _ \/ _ |- _ => destruct H
           end; try discriminate.
Qed.

(** X7. For two requests with the same request line on the same state,
    with helpers that marshal and sign: when the two logins send the
    same status, they return the same error, send the same body and
    leave the same log, whatever the two passwords are. *)
Theorem login_reveals_status_only
  (r1 r2 : Request) (P1 P2 : string) (s : state.t)
  (ret1 ret2 : error) (c1 c2 : Ctx state.t) :
  marshals helpers encode -> signs helpers jwt ->
  submits helpers r1 P1 -> submits helpers r2 P2 ->
  request_line r1 = request_line r2 ->
  routeAdminLogin helpers r1 (start s) = Done ret1 c1 ->
  routeAdminLogin helpers r2 (start s) = Done ret2 c2 ->
  status (w c1) = status (w c2) ->
  ret1 = ret2 /\ written (w c1) = written (w c2) /\ log c1 = log c2.
Proof.
  intros Hmarshal Hsign Hsub1 Hsub2 Hline Hrun1 Hrun2.
  rewrite (routeAdminLogin_run r1 P1 s Hmarshal Hsign Hsub1) in Hrun1.
  rewrite (routeAdminLogin_run r2 P2 s Hmarshal Hsign Hsub2) in Hrun2.
  injection Hrun1 as <- <-. injection Hrun2 as <- <-.
  cbn [w status written log]. unfold Login, login_log. rewrite Hline.
  destruct (hex.DecodeString (state.Salt (state.AdminCredentials s)))
    as [salt [e|]]; [intros _; repeat split|].
  destruct (hex.DecodeString (state.PasswordHash (state.AdminCredentials s)))
    as [stored [e|]]; [intros _; repeat split|].
  destruct (hmac.Equal (candidate P1 salt) stored),
           (hmac.Equal (candidate P2 salt) stored),
           (String.eqb (state.AdminToken s) "");
    cbn [fst snd]; intros Hst; try discriminate Hst; repeat split.
Qed.

End LoginRuns.

Lemma login_error_matches_status_witness :
  exists ret code body,
    answered (routeAdminLogin double (login_request "pw") (start corrupt_state))
             ret code body corrupt_state
    /\ (ret = None <-> code = StatusOK)
    /\ (ret = Some "invalid password"%string <-> code = StatusUnauthorized)
    /\ (ret = Some "failed to decode salt"%string
        \/ ret = Some "failed to decode password hash"%string
        \/ ret = Some "admin token not set"%string
        <-> code = StatusInternalServerError)
    /\ (code = StatusOK \/ code = StatusUnauthorized
        \/ code = StatusInternalServerError).
Proof.
  exact (login_error_matches_status double render sign
           (login_request "pw") "pw" corrupt_state
           double_marshals double_signs (double_submits "pw")).
Defined.

Lemma login_reveals_status_only_witness :
  Some "failed to decode salt"%string = Some "failed to decode salt"%string
  /\ written (w (fault_ctx "a")) = written (w (fault_ctx "b"))
  /\ log (fault_ctx "a") = log (fault_ctx "b").
Proof.
  apply (login_reveals_status_only double render sign
           (login_request "a") (login_request "b") "a" "b" corrupt_state).
  - exact double_marshals.
  - exact double_signs.
  - exact (double_submits "a").
  - exact (double_submits "b").
  - lazy; reflexivity.
  - lazy; reflexivity.
  - lazy; reflexivity.
  - lazy; reflexivity.
Defined.

Section LoginEdges.

Variable helpers : net.Helpers.
Variable encode : reqres.AdminLoginResponse -> bytes.
Variable jwt : string -> string.

(** X4. When the stored password hash decodes to a byte sequence that is
    not 32 bytes long, the login answers [401] to every password: the
    candidate always has 32 bytes and the comparison fails on the
    length. *)
Theorem login_rejects_wrong_length_hash
  (r : Request) (password : string) (s : state.t) (salt stored : bytes) :
  marshals helpers encode -> signs helpers jwt ->
  submits helpers r password ->
  hex.DecodeString (state.Salt (state.AdminCredentials s)) = (salt, None) ->
  hex.DecodeString (state.PasswordHash (state.AdminCredentials s))
  = (stored, None) ->
  List.length stored <> 32%nat ->
  answered (routeAdminLogin helpers r (start s))
           (Some "invalid password"%string) StatusUnauthorized
           (encode UnauthorizedResponse) s.
Proof.
  intros Hmarshal Hsign Hsub Hsalt Hhash Hlen.
  pose proof (routeAdminLogin_Login helpers encode jwt Hmarshal Hsign
                r password s Hsub) as Hrun.
  unfold Login in Hrun. rewrite Hsalt, Hhash in Hrun.
  assert (Hne : candidate password salt <> stored).
  { intros Heq. apply Hlen. rewrite <- Heq. apply candidate_length. }
  apply hmac_Equal_false in Hne. rewrite Hne in Hrun. exact Hrun.
Qed.

(** X5. When [MarshalBody] fails without sending anything, the login of
    a request that carries a password returns
    ["failed to marshal response body"], sends nothing itself and leaves
    the state alone, whatever the credentials and the password. *)
Theorem login_marshal_failure
  (r : Request) (password : string) (s : state.t) :
  (forall res wr, net.MarshalBody helpers res wr = (None, wr)) ->
  signs helpers jwt ->
  submits helpers r password ->
  exists c',
    routeAdminLogin helpers r (start s)
    = Done (Some "failed to marshal response body"%string) c'
    /\ w c' = fresh_writer /\ st c' = s.
Proof.
  intros Hmarshal Hsign (body & Hread & Hparse).
  unfold routeAdminLogin, bind, ret, logInfo, logError,
    setAuditAction, onWriter, getState, must, start.
  cbn [st w log audit]. rewrite Hread. cbn [st w log audit].
  rewrite Hparse. cbn [st w log audit reqres.Password].
  destruct (hex.DecodeString (state.Salt (state.AdminCredentials s)))
    as [salt [e|]].
  { cbn [st w log audit]. rewrite Hmarshal. eexists. repeat split. }
  rewrite Key_nonneg by lia.
  destruct (hex.DecodeString (state.PasswordHash (state.AdminCredentials s)))
    as [stored [e|]].
  { cbn [st w log audit]. rewrite Hmarshal. eexists. repeat split. }
  destruct (hmac.Equal _ stored); cbn [negb].
  2:{ cbn [st w log audit]. rewrite Hmarshal. eexists. repeat split. }
  cbn [st w log audit].
  destruct (String.eqb (state.AdminToken s) "") eqn:Htok.
  { cbn [st w log audit]. rewrite Hmarshal. eexists. repeat split. }
  apply String.eqb_neq in Htok.
  destruct (Hsign (state.AdminToken s) fresh_writer Htok) as [Hjwt Hne].
  cbn [st w log audit]. rewrite Hjwt. cbn [st w log audit].
  apply String.eqb_neq in Hne. rewrite Hne.
  cbn [st w log audit]. rewrite Hmarshal. eexists. repeat split.
Qed.

(** X6. When the password matches, the admin token is set and
    [CreateJwt] returns the empty string, the login returns
    ["failed to sign token"]: it sends nothing of its own (the writer is
    the one [CreateJwt] left), logs nothing after the request line and
    leaves the state alone. *)
Theorem login_sign_failure
  (r : Request) (password : string) (s : state.t) (wj : ResponseWriter) :
  submits helpers r password ->
  password_matches s password ->
  state.AdminToken s <> ""%string ->
  net.CreateJwt helpers (state.AdminToken s) fresh_writer = (""%string, wj) ->
  routeAdminLogin helpers r (start s)
  = Done (Some "failed to sign token"%string)
         (mkCtx s wj [request_line r] (mkAudit "login")).
Proof.
  intros (body & Hread & Hparse) (salt & stored & Hsalt & Hhash & Hmatch)
         Htok Hjwt.
  unfold routeAdminLogin, request_line, bind, ret, logInfo, logError,
    setAuditAction, onWriter, getState, must, start.
  cbn [st w log audit]. rewrite Hread. cbn [st w log audit].
  rewrite Hparse. cbn [st w log audit reqres.Password].
  rewrite Hsalt. rewrite Key_nonneg by lia. rewrite Hhash.
  unfold candidate in Hmatch. rewrite Hmatch, hmac_Equal_refl.
  cbn [negb st w log audit].
  apply String.eqb_neq in Htok. rewrite Htok.
  cbn [st w log audit]. rewrite Hjwt. reflexivity.
Qed.

End LoginEdges.

Lemma login_rejects_wrong_length_hash_witness :
  answered (routeAdminLogin double (login_request "pw")
                            (start short_hash_state))
           (Some "invalid password"%string) StatusUnauthorized
           (render UnauthorizedResponse) short_hash_state.
Proof.
  apply (login_rejects_wrong_length_hash double render sign
           (login_request "pw") "pw" short_hash_state [x00] [x00]).
  - exact double_marshals.
  - exact double_signs.
  - exact (double_submits "pw").
  - reflexivity.
  - reflexivity.
  - discriminate.
Defined.

Lemma unmarshalling_signs : signs unmarshalling sign.
Proof.
  intros adminToken wr _. split; [reflexivity|].
  unfold sign. cbn [String.append]. discriminate.
Qed.

Lemma login_marshal_failure_witness :
  exists c',
    routeAdminLogin unmarshalling (login_request "pw") (start corrupt_state)
    = Done (Some "failed to marshal response body"%string) c'
    /\ w c' = fresh_writer /\ st c' = corrupt_state.
Proof.
  apply (login_marshal_failure unmarshalling sign (login_request "pw") "pw"
           corrupt_state).
  - intros res wr. reflexivity.
  - exact unmarshalling_signs.
  - exact (double_submits "pw").
Defined.

Lemma example_state_matches : password_matches example_state "hunter2".
Proof.
  exists example_salt, (candidate "hunter2" example_salt).
  split; [apply hex_DecodeString_EncodeToString|].
  split; [apply hex_DecodeString_EncodeToString|reflexivity].
Qed.

Lemma login_sign_failure_witness :
  routeAdminLogin unsigning (login_request "hunter2") (start example_state)
  = Done (Some "failed to sign token"%string)
         (mkCtx example_state
                (Write [] (WriteHeader StatusInternalServerError fresh_writer))
                [request_line (login_request "hunter2")] (mkAudit "login")).
Proof.
  apply (login_sign_failure unsigning (login_request "hunter2") "hunter2"
           example_state).
  - exact (double_submits "hunter2").
  - exact example_state_matches.
  - discriminate.
  - reflexivity.
Defined.

(** ** The bootstrap: what it stores and how the login reads it back *)

Lemma string_of_bytes_length (b : bytes) :
  String.length (string_of_bytes b) = List.length b.
Proof.
  unfold string_of_bytes, string_of_list_byte.
  induction b as [|x b IH]; [reflexivity|].
  cbn [map string_of_list_ascii String.length List.length]. rewrite IH.
  reflexivity.
Qed.

Lemma Encode_length (src : bytes) :
  List.length (hex.Encode src) = (2 * List.length src)%nat.
Proof.
  induction src as [|v src IH]; [reflexivity|].
  cbn [hex.Encode List.length]. rewrite IH. lia.
Qed.

Lemma Encode_alphabet (src : bytes) :
  Forall (fun c => In c hex.hextable) (hex.Encode src).
Proof.
  induction src as [|v src IH]; [constructor|].
  cbn [hex.Encode]. constructor; [|constructor; [|exact IH]].
  - destruct v; vm_compute; repeat first [left; reflexivity | right].
  - destruct v; vm_compute; repeat first [left; reflexivity | right].
Qed.

Lemma bootstrapped_token_set (environment : env.t) (password : string)
  (adminTokenBytes salt : bytes) (s : state.t) :
  String.eqb
    (state.AdminToken
       (bootstrapped environment password adminTokenBytes salt s)) ""
  = false.
Proof. reflexivity. Qed.

(** X8. When the environment holds 600,000 iterations and 32 bytes, a
    login with the password given to [updateStateForInit] succeeds on
    the state it leaves: the answer is [200] with the token signed under
    ["spike."] followed by the token bytes, with helpers that marshal
    and sign. *)
Theorem bootstrap_then_login
  (helpers : net.Helpers) (encode : reqres.AdminLoginResponse -> bytes)
  (jwt : string -> string) (environment : env.t)
  (r : Request) (password : string) (adminTokenBytes salt : bytes)
  (c : Ctx state.t) :
  env.Pbkdf2IterationCount environment = 600000 ->
  env.ShaHashLength environment = 32 ->
  marshals helpers encode -> signs helpers jwt ->
  submits helpers r password ->
  exists c1,
    updateStateForInit environment password adminTokenBytes salt c
    = Done tt c1
    /\ answered (routeAdminLogin helpers r (start (st c1)))
                None StatusOK
                (encode (TokenResponse
                           (jwt ("spike." ++ string_of_bytes adminTokenBytes)%string)))
                (st c1).
Proof.
  intros Hiter Hlen Hmarshal Hsign Hsub. eexists.
  split; [apply updateStateForInit_run; rewrite Hlen; discriminate|].
  cbn [st].
  pose proof (routeAdminLogin_Login helpers encode jwt Hmarshal Hsign r
                password
                (bootstrapped environment password adminTokenBytes salt
                              (st c)) Hsub) as Hrun.
  rewrite (Login_hex jwt
             (bootstrapped environment password adminTokenBytes salt (st c))
             password (bootstrap_hash environment password salt) salt eq_refl)
    in Hrun.
  rewrite (bootstrap_login_agree environment password salt Hiter Hlen),
    hmac_Equal_refl, bootstrapped_token_set in Hrun.
  exact Hrun.
Qed.

Lemma bootstrap_then_login_witness :
  exists c1,
    updateStateForInit env_default "hunter2" [x41] example_salt
                       (start state.empty)
    = Done tt c1
    /\ answered (routeAdminLogin double (login_request "hunter2")
                                 (start (st c1)))
                None StatusOK
                (render (TokenResponse
                           (sign ("spike." ++ string_of_bytes [x41])%string)))
                (st c1).
Proof.
  apply (bootstrap_then_login double render sign env_default
           (login_request "hunter2") "hunter2" [x41] example_salt
           (start state.empty)).
  - reflexivity.
  - reflexivity.
  - exact double_marshals.
  - exact double_signs.
  - exact (double_submits "hunter2").
Defined.

(** X9. Whatever the environment, as long as its hash length is not
    negative: on the state left by [updateStateForInit], a login that
    carries a password is answered [200] or [401], never [500], with
    helpers that marshal and sign. *)
Theorem login_after_bootstrap_never_faults
  (helpers : net.Helpers) (encode : reqres.AdminLoginResponse -> bytes)
  (jwt : string -> string) (environment : env.t)
  (r : Request) (password P' : string) (adminTokenBytes salt : bytes)
  (c : Ctx state.t) :
  0 <= env.ShaHashLength environment ->
  marshals helpers encode -> signs helpers jwt ->
  submits helpers r P' ->
  exists c1 ret code body,
    updateStateForInit environment password adminTokenBytes salt c
    = Done tt c1
    /\ answered (routeAdminLogin helpers r (start (st c1)))
                ret code body (st c1)
    /\ (code = StatusOK \/ code = StatusUnauthorized)
    /\ ret <> Some "admin token not set"%string
    /\ ret <> Some "failed to decode salt"%string
    /\ ret <> Some "failed to decode password hash"%string.
Proof.
  intros Hlen Hmarshal Hsign Hsub. eexists.
  pose proof (routeAdminLogin_Login helpers encode jwt Hmarshal Hsign r P'
                (bootstrapped environment password adminTokenBytes salt
                              (st c)) Hsub) as Hrun.
  rewrite (Login_hex jwt
             (bootstrapped environment password adminTokenBytes salt (st c))
             P' (bootstrap_hash environment password salt) salt eq_refl)
    in Hrun.
  rewrite bootstrapped_token_set in Hrun.
  destruct (hmac.Equal (candidate P' salt)
                       (bootstrap_hash environment password salt));
    cbn [fst snd] in Hrun;
    (eexists; eexists; eexists;
     split; [apply updateStateForInit_run; exact Hlen|];
     split; [exact Hrun|]);
    (split; [first [left; reflexivity | right; reflexivity]|]);
    repeat split; discriminate.
Qed.

Lemma login_after_bootstrap_never_faults_witness :
  exists c1 ret code body,
    updateStateForInit env_short "hunter2" [x41] example_salt
                       (start state.empty)
    = Done tt c1
    /\ answered (routeAdminLogin double (login_request "letmein")
                                 (start (st c1)))
                ret code body (st c1)
    /\ (code = StatusOK \/ code = StatusUnauthorized)
    /\ ret <> Some "admin token not set"%string
    /\ ret <> Some "failed to decode salt"%string
    /\ ret <> Some "failed to decode password hash"%string.
Proof.
  apply (login_after_bootstrap_never_faults double render sign env_short
           (login_request "letmein") "hunter2" "letmein" [x41] example_salt
           (start state.empty)).
  - discriminate.
  - exact double_marshals.
  - exact double_signs.
  - exact (double_submits "letmein").
Defined.

(** X11. For a hash length that is not negative, the credential record
    written by [updateStateForInit] holds a password hash of twice the
    hash length characters and a salt of twice the salt length
    characters, all of them among [0123456789abcdef], and an admin token
    of six characters more than the token bytes. *)
Theorem bootstrap_credential_shape
  (environment : env.t) (password : string) (adminTokenBytes salt : bytes)
  (c : Ctx state.t) :
  0 <= env.ShaHashLength environment ->
  exists c',
    updateStateForInit environment password adminTokenBytes salt c
    = Done tt c'
    /\ String.length (state.PasswordHash (state.AdminCredentials (st c')))
       = (2 * Z.to_nat (env.ShaHashLength environment))%nat
    /\ String.length (state.Salt (state.AdminCredentials (st c')))
       = (2 * List.length salt)%nat
    /\ Forall (fun ch => In ch hex.hextable)
              (bytes_of_string
                 (state.PasswordHash (state.AdminCredentials (st c'))))
    /\ Forall (fun ch => In ch hex.hextable)
              (bytes_of_string (state.Salt (state.AdminCredentials (st c'))))
    /\ String.length (state.AdminToken (st c'))
       = (6 + List.length adminTokenBytes)%nat.
Proof.
  intros Hlen. eexists.
  split; [apply updateStateForInit_run; exact Hlen|].
  cbn [st bootstrapped state.AdminCredentials state.adminCredentials
       state.PasswordHash state.Salt state.AdminToken state.adminToken].
  unfold hex.EncodeToString, bytes_of_string.
  rewrite !string_of_bytes_length, !Encode_length.
  unfold string_of_bytes. rewrite !list_byte_of_string_of_list_byte.
  rewrite bootstrap_hash_length by exact Hlen.
  split; [reflexivity|]. split; [reflexivity|].
  split; [apply Encode_alphabet|]. split; [apply Encode_alphabet|].
  cbn [String.append String.length].
  fold (string_of_bytes adminTokenBytes).
  rewrite string_of_bytes_length. reflexivity.
Qed.

Lemma bootstrap_credential_shape_witness :
  exists c',
    updateStateForInit env_default "hunter2" [x41] example_salt
                       (start state.empty)
    = Done tt c'
    /\ String.length (state.PasswordHash (state.AdminCredentials (st c')))
       = (2 * Z.to_nat (env.ShaHashLength env_default))%nat
    /\ String.length (state.Salt (state.AdminCredentials (st c')))
       = (2 * List.length example_salt)%nat
    /\ Forall (fun ch => In ch hex.hextable)
              (bytes_of_string
                 (state.PasswordHash (state.AdminCredentials (st c'))))
    /\ Forall (fun ch => In ch hex.hextable)
              (bytes_of_string (state.Salt (state.AdminCredentials (st c'))))
    /\ String.length (state.AdminToken (st c'))
       = (6 + List.length [x41])%nat.
Proof.
  apply (bootstrap_credential_shape env_default "hunter2" [x41] example_salt
           (start state.empty)).
  discriminate.
Defined.

(** ** The replicator loop over a run of events *)

(** As long as the context is not cancelled, the loop run on two runs of
    events in a row is the loop run on the first, then on the second. *)
Lemma Tick_app (e1 e2 : list poll.Event) (wd : poll.World) :
  ~ In poll.CtxDone e1 ->
  poll.Tick (e1 ++ e2) wd = poll.Tick e2 (fst (poll.Tick e1 wd)).
Proof.
  revert wd. induction e1 as [|e e1 IH]; intros wd Hno; [reflexivity|].
  assert (Hno' : ~ In poll.CtxDone e1) by (intros H; apply Hno; right; exact H).
  destruct e; cbn [app poll.Tick]; try (apply IH; exact Hno').
  exfalso. apply Hno. left. reflexivity.
Qed.

Lemma set_reachable_held (i : nat) (b : bool) (ks : list poll.Keeper) :
  map poll.held (poll.set_reachable i b ks) = map poll.held ks
  /\ map poll.attempts (poll.set_reachable i b ks) = map poll.attempts ks.
Proof.
  revert i. induction ks as [|k ks IH]; intros [|i]; cbn; try (split; reflexivity).
  destruct (IH i) as [H1 H2]. rewrite H1, H2. split; reflexivity.
Qed.

(** X12. The loop returns exactly when the context is cancelled: when
    [ctx.Done] comes after events that do not hold it, the loop returns
    with the world as those events left it, and nothing that follows has
    any effect. *)
Theorem tick_stops_at_cancellation
  (pre post : list poll.Event) (wd : poll.World) :
  ~ In poll.CtxDone pre ->
  poll.Tick (pre ++ poll.CtxDone :: post) wd
  = (fst (poll.Tick pre wd), poll.Returned)
  /\ snd (poll.Tick pre wd) = poll.Waiting.
Proof.
  intros Hno. split.
  - rewrite Tick_app by exact Hno. reflexivity.
  - clear post. revert wd.
    induction pre as [|e pre IH]; intros wd; [reflexivity|].
    assert (Hno' : ~ In poll.CtxDone pre)
      by (intros H; apply Hno; right; exact H).
    destruct e; cbn [poll.Tick]; try (apply IH; exact Hno').
    exfalso. apply Hno. left. reflexivity.
Qed.

Lemma tick_stops_at_cancellation_witness :
  poll.Tick ([poll.TickerC; poll.KeeperDown 0] ++ poll.CtxDone :: [poll.TickerC])
            (poll.mkWorld (state.mk "" (state.mkCredentials "" "") "k1")
                          [poll.mkKeeper true "" 0] [])
  = (fst (poll.Tick [poll.TickerC; poll.KeeperDown 0]
                    (poll.mkWorld (state.mk "" (state.mkCredentials "" "") "k1")
                                  [poll.mkKeeper true "" 0] [])),
     poll.Returned)
  /\ snd (poll.Tick [poll.TickerC; poll.KeeperDown 0]
                    (poll.mkWorld (state.mk "" (state.mkCredentials "" "") "k1")
                                  [poll.mkKeeper true "" 0] []))
     = poll.Waiting.
Proof.
  apply (tick_stops_at_cancellation [poll.TickerC; poll.KeeperDown 0]
           [poll.TickerC]).
  cbn. intros [H|[H|H]]; [discriminate H|discriminate H|exact H].
Defined.

(** X13. As long as the root key is empty and no handler sets it, the
    loop pushes nothing and logs nothing, however many times the ticker
    fires: the keys held by the Keepers, their attempt counts, the log
    and the Nexus state are those of the start. *)
Theorem tick_idle_before_initialization
  (events : list poll.Event) (wd : poll.World) :
  state.RootKey (poll.nexus wd) = ""%string ->
  (forall key, ~ In (poll.RootKeySet key) events) ->
  poll.nexus (fst (poll.Tick events wd)) = poll.nexus wd
  /\ poll.journal (fst (poll.Tick events wd)) = poll.journal wd
  /\ map poll.held (poll.keepers (fst (poll.Tick events wd)))
     = map poll.held (poll.keepers wd)
  /\ map poll.attempts (poll.keepers (fst (poll.Tick events wd)))
     = map poll.attempts (poll.keepers wd).
Proof.
  revert wd. induction events as [|e events IH]; intros wd Hkey Hno;
    [repeat split|].
  assert (Hno' : forall key, ~ In (poll.RootKeySet key) events)
    by (intros key H; apply (Hno key); right; exact H).
  destruct e; cbn [poll.Tick].
  - assert (Hskip : poll.onTick wd = wd)
      by (unfold poll.onTick; rewrite Hkey; reflexivity).
    rewrite Hskip. apply IH; assumption.
  - repeat split.
  - destruct (IH (poll.mkWorld (poll.nexus wd)
                    (poll.set_reachable i true (poll.keepers wd))
                    (poll.journal wd)) Hkey Hno') as (H1 & H2 & H3 & H4).
    cbn [poll.nexus poll.journal poll.keepers] in H1, H2, H3, H4.
    destruct (set_reachable_held i true (poll.keepers wd)) as [E1 E2].
    rewrite H1, H2, H3, H4, E1, E2. repeat split.
  - destruct (IH (poll.mkWorld (poll.nexus wd)
                    (poll.set_reachable i false (poll.keepers wd))
                    (poll.journal wd)) Hkey Hno') as (H1 & H2 & H3 & H4).
    cbn [poll.nexus poll.journal poll.keepers] in H1, H2, H3, H4.
    destruct (set_reachable_held i false (poll.keepers wd)) as [E1 E2].
    rewrite H1, H2, H3, H4, E1, E2. repeat split.
  - exfalso. apply (Hno key). left. reflexivity.
Qed.

Lemma tick_idle_before_initialization_witness :
  poll.nexus
    (fst (poll.Tick [poll.TickerC; poll.KeeperDown 0; poll.TickerC]
                    (poll.mkWorld state.empty [poll.mkKeeper true "k0" 3] [])))
  = poll.nexus (poll.mkWorld state.empty [poll.mkKeeper true "k0" 3] [])
  /\ poll.journal
       (fst (poll.Tick [poll.TickerC; poll.KeeperDown 0; poll.TickerC]
                       (poll.mkWorld state.empty [poll.mkKeeper true "k0" 3] [])))
     = poll.journal (poll.mkWorld state.empty [poll.mkKeeper true "k0" 3] [])
  /\ map poll.held
       (poll.keepers
          (fst (poll.Tick [poll.TickerC; poll.KeeperDown 0; poll.TickerC]
                          (poll.mkWorld state.empty
                                        [poll.mkKeeper true "k0" 3] []))))
     = map poll.held
         (poll.keepers (poll.mkWorld state.empty [poll.mkKeeper true "k0" 3] []))
  /\ map poll.attempts
       (poll.keepers
          (fst (poll.Tick [poll.TickerC; poll.KeeperDown 0; poll.TickerC]
                          (poll.mkWorld state.empty
                                        [poll.mkKeeper true "k0" 3] []))))
     = map poll.attempts
         (poll.keepers (poll.mkWorld state.empty [poll.mkKeeper true "k0" 3] [])).
Proof.
  apply (tick_idle_before_initialization
           [poll.TickerC; poll.KeeperDown 0; poll.TickerC]).
  - reflexivity.
  - intros key H. cbn in H.
    destruct H as [H|[H|[H|H]]]; [discriminate H|discriminate H|
                                   discriminate H|exact H].
Defined.

(** X14. The key pushed on a tick is the root key read at that tick:
    after any events that do not cancel the context, a further tick
    under a non-empty root key leaves every Keeper that can be reached
    holding that key, whatever it held and whatever was pushed before
    (the push to each Keeper being the one of the replication design). *)
Theorem tick_pushes_current_key
  (pre : list poll.Event) (wd : poll.World) (i : nat) (k : poll.Keeper) :
  ~ In poll.CtxDone pre ->
  state.RootKey (poll.nexus (fst (poll.Tick pre wd))) <> ""%string ->
  nth_error (poll.keepers (fst (poll.Tick pre wd))) i = Some k ->
  poll.reachable k = true ->
  exists k',
    nth_error
      (poll.keepers (fst (poll.Tick (pre ++ [poll.TickerC]) wd))) i
    = Some k'
    /\ poll.held k'
       = state.RootKey (poll.nexus (fst (poll.Tick pre wd))).
Proof.
  intros Hno Hkey Hk Hup.
  rewrite Tick_app by exact Hno. cbn [poll.Tick fst].
  destruct (onTick_key (fst (poll.Tick pre wd)) Hkey) as (_ & Hkeepers & _).
  rewrite Hkeepers, nth_error_map, Hk. cbn [option_map].
  eexists. split; [reflexivity|].
  unfold poll.push. rewrite Hup. reflexivity.
Qed.

Lemma tick_pushes_current_key_witness :
  exists k',
    nth_error
      (poll.keepers
         (fst (poll.Tick ([poll.TickerC; poll.RootKeySet "k2"]
                          ++ [poll.TickerC])
                 (poll.mkWorld (state.mk "" (state.mkCredentials "" "") "k1")
                               [poll.mkKeeper true "" 0] [])))) 0
    = Some k'
    /\ poll.held k'
       = state.RootKey
           (poll.nexus
              (fst (poll.Tick [poll.TickerC; poll.RootKeySet "k2"]
                      (poll.mkWorld
                         (state.mk "" (state.mkCredentials "" "") "k1")
                         [poll.mkKeeper true "" 0] [])))).
Proof.
  apply (tick_pushes_current_key [poll.TickerC; poll.RootKeySet "k2"]
           (poll.mkWorld (state.mk "" (state.mkCredentials "" "") "k1")
                         [poll.mkKeeper true "" 0] [])
           0%nat (poll.mkKeeper true "k1" 1)).
  - cbn. intros [H|[H|H]]; [discriminate H|discriminate H|exact H].
  - cbn. discriminate.
  - reflexivity.
  - reflexivity.
Defined.

(** ** The Keeper-side read handler: frame, bad requests, failures *)

(** X15. Whatever the helpers answer and whatever the request,
    [routeShow] returns and leaves the Keeper state as it found it: the
    held root key is read, never written. *)
Theorem routeShow_reads_only
  (helpers : keeper.Helpers) (r : Request) (c : Ctx keeper.State) :
  exists c', keeper.routeShow helpers r c = Done tt c' /\ st c' = st c.
Proof.
  assert (H : wp (keeper.routeShow helpers r)
                (fun u c' => u = tt /\ st c' = st c) c).
  { unfold keeper.routeShow. wp_run; split; reflexivity. }
  apply wp_Done in H. destruct H as (u & c' & Hrun & -> & Hst).
  exists c'. split; assumption.
Qed.

(** X16. The held root key reaches the response only of a request that
    is read and unmarshals: when the body cannot be read, or
    [HandleRequestError] returns an error, what [routeShow] sends and
    logs is the same whatever key the Keeper holds. *)
Theorem routeShow_key_needs_unmarshal
  (helpers : keeper.Helpers) (r : Request) (s1 s2 : keeper.State)
  (wr : ResponseWriter) (lg : list LogEntry) (a : AuditEntry) :
  (fst (keeper.ReadRequestBody helpers r wr) = None
   \/ exists body,
        fst (keeper.ReadRequestBody helpers r wr) = Some body
        /\ fst (keeper.HandleRequestError helpers
                  (snd (keeper.ReadRequestBody helpers r wr))
                  (keeper.Unmarshal helpers body)) <> None) ->
  exists w' lg',
    keeper.routeShow helpers r (mkCtx s1 wr lg a)
    = Done tt (mkCtx s1 w' lg' a)
    /\ keeper.routeShow helpers r (mkCtx s2 wr lg a)
       = Done tt (mkCtx s2 w' lg' a).
Proof.
  intros Hbad.
  unfold keeper.routeShow, bind, ret, logPrintln, onWriter, getState.
  cbn [st w log audit].
  destruct (keeper.ReadRequestBody helpers r wr) as [[body|] w1];
    cbn [fst snd] in Hbad; cbn [st w log audit].
  - destruct Hbad as [Hbad|(body' & Hbody & Herr)]; [discriminate Hbad|].
    injection Hbody as <-.
    destruct (keeper.HandleRequestError helpers w1 _) as [[e|] w2];
      cbn [fst] in Herr; [|contradiction].
    cbn [st w log audit]. eexists. eexists. split; reflexivity.
  - eexists. eexists. split; reflexivity.
Qed.

Lemma routeShow_key_needs_unmarshal_witness :
  exists w' lg',
    keeper.routeShow keeper.double
      (mkRequest "GET" "/key" "" (bytes_of_string "{"))
      (mkCtx (keeper.mkState "k1") fresh_writer [] (mkAudit ""))
    = Done tt (mkCtx (keeper.mkState "k1") w' lg' (mkAudit ""))
    /\ keeper.routeShow keeper.double
         (mkRequest "GET" "/key" "" (bytes_of_string "{"))
         (mkCtx (keeper.mkState "k2") fresh_writer [] (mkAudit ""))
       = Done tt (mkCtx (keeper.mkState "k2") w' lg' (mkAudit "")).
Proof.
  apply (routeShow_key_needs_unmarshal keeper.double
           (mkRequest "GET" "/key" "" (bytes_of_string "{"))
           (keeper.mkState "k1") (keeper.mkState "k2")
           fresh_writer [] (mkAudit "")).
  right. exists (bytes_of_string "{"). split; [reflexivity|].
  cbn. discriminate.
Defined.

(** X17. When the response fails to marshal, [routeShow] goes on after
    its [WriteHeader(500)]: the later [WriteHeader(200)] is superfluous,
    so the status sent is [500], and the body is the bytes that
    [json.Marshal] returned with its error. *)
Theorem routeShow_marshal_failure
  (helpers : keeper.Helpers) (r : Request) (body md : bytes)
  (e : string) (s : keeper.State) :
  keeper.reads helpers r body ->
  keeper.Unmarshal helpers body = None ->
  keeper.HandleRequestError helpers fresh_writer None = (None, fresh_writer) ->
  keeper.Marshal helpers (reqres.mkRootKeyReadResponse (keeper.RootKey s))
  = (md, Some e) ->
  answered (keeper.routeShow helpers r (start s))
           tt StatusInternalServerError md s.
Proof.
  intros Hread Hun Hnil Hmd. unfold keeper.reads in Hread.
  unfold keeper.routeShow, answered, bind, ret, logPrintln, onWriter,
    getState, start.
  cbn [st w log audit]. rewrite Hread. cbn [st w log audit].
  rewrite Hun, Hnil. cbn [st w log audit]. rewrite Hmd.
  cbn [st w log audit].
  eexists. split; [reflexivity|]. cbn [st w].
  unfold WriteString, Write, WriteHeader, fresh_writer, bytes_of_string,
    string_of_bytes.
  cbn [status written]. rewrite list_byte_of_string_of_list_byte.
  repeat split.
Qed.

Lemma routeShow_marshal_failure_witness :
  answered (keeper.routeShow keeper_unmarshalling
              (mkRequest "GET" "/key" "" (bytes_of_string "{}"))
              (start (keeper.mkState "k1")))
           tt StatusInternalServerError [] (keeper.mkState "k1").
Proof.
  apply (routeShow_marshal_failure keeper_unmarshalling
           (mkRequest "GET" "/key" "" (bytes_of_string "{}"))
           (bytes_of_string "{}") [] "json: unsupported value"
           (keeper.mkState "k1")).
  - reflexivity.
  - reflexivity.
  - reflexivity.
  - reflexivity.
Defined.

(** X18. The held root key is never written to the log: on any two
    Keeper states for which [json.Marshal] reports no error,
    [routeShow] leaves the same log, whatever the helpers answer. *)
Theorem routeShow_log_ignores_key
  (helpers : keeper.Helpers) (r : Request) (s1 s2 : keeper.State)
  (wr : ResponseWriter) (lg : list LogEntry) (a : AuditEntry) :
  snd (keeper.Marshal helpers
         (reqres.mkRootKeyReadResponse (keeper.RootKey s1))) = None ->
  snd (keeper.Marshal helpers
         (reqres.mkRootKeyReadResponse (keeper.RootKey s2))) = None ->
  exists c1 c2,
    keeper.routeShow helpers r (mkCtx s1 wr lg a) = Done tt c1
    /\ keeper.routeShow helpers r (mkCtx s2 wr lg a) = Done tt c2
    /\ log c1 = log c2.
Proof.
  intros H1 H2.
  unfold keeper.routeShow, bind, ret, logPrintln, onWriter, getState.
  cbn [st w log audit].
  destruct (keeper.ReadRequestBody helpers r wr) as [[body|] w1];
    cbn [st w log audit]; [|eexists; eexists; repeat split].
  destruct (keeper.HandleRequestError helpers w1 _) as [[e|] w2];
    cbn [st w log audit]; [eexists; eexists; repeat split|].
  destruct (keeper.Marshal helpers
              (reqres.mkRootKeyReadResponse (keeper.RootKey s1)))
    as [md1 [e1|]]; cbn [snd] in H1; [discriminate H1|].
  destruct (keeper.Marshal helpers
              (reqres.mkRootKeyReadResponse (keeper.RootKey s2)))
    as [md2 [e2|]]; cbn [snd] in H2; [discriminate H2|].
  cbn [st w log audit]. eexists. eexists. repeat split.
Qed.

Lemma routeShow_log_ignores_key_witness :
  exists c1 c2,
    keeper.routeShow keeper.double
      (mkRequest "GET" "/key" "" (bytes_of_string "{}"))
      (mkCtx (keeper.mkState "k1") fresh_writer [] (mkAudit "")) = Done tt c1
    /\ keeper.routeShow keeper.double
         (mkRequest "GET" "/key" "" (bytes_of_string "{}"))
         (mkCtx (keeper.mkState "k2") fresh_writer [] (mkAudit ""))
       = Done tt c2
    /\ log c1 = log c2.
Proof.
  apply (routeShow_log_ignores_key keeper.double
           (mkRequest "GET" "/key" "" (bytes_of_string "{}"))
           (keeper.mkState "k1") (keeper.mkState "k2")
           fresh_writer [] (mkAudit "")).
  - reflexivity.
  - reflexivity.
Defined.

(** ** The login handler and the shape of the stored credentials *)

Lemma list_pair_ind {A} (P : list A -> Prop) :
  P [] -> (forall a, P [a]) -> (forall a b l, P l -> P (a :: b :: l)) ->
  forall l, P l.
Proof.
  intros H0 H1 H2 l.
  assert (H : P l /\ forall a, P (a :: l)).
  { induction l as [|x l [IH1 IH2]]; [split; [exact H0|exact H1]|].
    split; [apply IH2|]. intros a. apply H2, IH1. }
  exact (proj1 H).
Qed.

Lemma Decode_cons2 (p q : byte) (rest : bytes) :
  hex.Decode (p :: q :: rest)
  = if 15 <? hex.reverseHexTable p then ([], Some (hex.InvalidByteError p))
    else if 15 <? hex.reverseHexTable q
         then ([], Some (hex.InvalidByteError q))
         else (byte_of_Z (Z.lor (Z.shiftl (hex.reverseHexTable p) 4)
                                (hex.reverseHexTable q))
                 :: fst (hex.Decode rest),
               snd (hex.Decode rest)).
Proof.
  cbn [hex.Decode].
  destruct (15 <? hex.reverseHexTable p); [reflexivity|].
  destruct (15 <? hex.reverseHexTable q); [reflexivity|].
  destruct (hex.Decode rest). reflexivity.
Qed.

(** [hex.Decode] succeeds exactly on an even number of digits, and then
    yields half as many bytes. *)
Lemma Decode_ok_iff (src : bytes) :
  (snd (hex.Decode src) = None
   <-> Nat.even (List.length src) = true /\ Forall hex_digit src)
  /\ (snd (hex.Decode src) = None ->
      List.length src = (2 * List.length (fst (hex.Decode src)))%nat).
Proof.
  induction src as [|a|p q rest [IH1 IH2]] using list_pair_ind.
  - split; [|reflexivity]. split; [intros _; split; [reflexivity|constructor]|].
    reflexivity.
  - cbn [hex.Decode]. split.
    + split.
      * destruct (15 <? hex.reverseHexTable a); discriminate.
      * intros [H _]. discriminate H.
    + destruct (15 <? hex.reverseHexTable a); discriminate.
  - rewrite Decode_cons2. unfold hex_digit in *.
    destruct (15 <? hex.reverseHexTable p) eqn:Hp.
    { apply Z.ltb_lt in Hp. split; [|discriminate]. split; [discriminate|].
      intros [_ H]. inversion H; subst. lia. }
    apply Z.ltb_ge in Hp.
    destruct (15 <? hex.reverseHexTable q) eqn:Hq.
    { apply Z.ltb_lt in Hq. split; [|discriminate]. split; [discriminate|].
      intros [_ H]. inversion H as [|? ? _ H']; subst.
      inversion H'; subst. lia. }
    apply Z.ltb_ge in Hq. cbn [fst snd List.length]. split.
    + rewrite IH1. cbn [Nat.even]. split.
      * intros [He Hf]. split; [exact He|].
        constructor; [exact Hp|constructor; [exact Hq|exact Hf]].
      * intros [He Hf]. split; [exact He|].
        inversion Hf as [|? ? _ H']; subst. inversion H'; subst. assumption.
    + intros H. rewrite (IH2 H). lia.
Qed.

Section LoginShape.

Variable helpers : net.Helpers.
Variable encode : reqres.AdminLoginResponse -> bytes.
Variable jwt : string -> string.

(** X19. The login answers [200] only when the stored salt and hash
    decode, the candidate derived from the submitted password equals the
    decoded hash and the admin token is set; the body is then the
    marshalled response that carries the token signed under the admin
    token. *)
Theorem login_success_sound
  (r : Request) (password : string) (s : state.t) (body : bytes) :
  marshals helpers encode -> signs helpers jwt ->
  submits helpers r password ->
  responded (routeAdminLogin helpers r (start s)) StatusOK body ->
  password_matches s password
  /\ state.AdminToken s <> ""%string
  /\ body = encode (TokenResponse (jwt (state.AdminToken s))).
Proof.
  intros Hmarshal Hsign Hsub Hresp.
  pose proof (routeAdminLogin_Login helpers encode jwt Hmarshal Hsign
                r password s Hsub) as Hrun.
  destruct (Login_cases jwt s password)
    as [(_ & Hcode & _)|[(Hnf & Hm & HL)|(_ & _ & HL)]].
  - rewrite Hcode in Hrun.
    destruct (answered_responded_inv _ _ _ _ _ _ _ Hrun Hresp) as [Hc _].
    discriminate Hc.
  - rewrite HL in Hrun. cbn [fst snd] in Hrun.
    destruct (answered_responded_inv _ _ _ _ _ _ _ Hrun Hresp) as [_ Hb].
    split; [exact Hm|]. split; [|exact Hb].
    intros Htok. apply Hnf. right. right. split; assumption.
  - rewrite HL in Hrun. cbn [fst snd] in Hrun.
    destruct (answered_responded_inv _ _ _ _ _ _ _ Hrun Hresp) as [Hc _].
    discriminate Hc.
Qed.

(** X20. When the stored password hash is not 64 characters long, the
    login answers [401] or [500] to every password, never [200]: either
    the hash does not decode, or it decodes to other than 32 bytes and
    the comparison fails. *)
Theorem login_needs_64_hex_chars
  (r : Request) (password : string) (s : state.t) :
  marshals helpers encode -> signs helpers jwt ->
  submits helpers r password ->
  String.length (state.PasswordHash (state.AdminCredentials s)) <> 64%nat ->
  exists ret code body,
    answered (routeAdminLogin helpers r (start s)) ret code body s
    /\ (code = StatusUnauthorized \/ code = StatusInternalServerError)
    /\ ret <> None.
Proof.
  intros Hmarshal Hsign Hsub Hlen.
  pose proof (routeAdminLogin_Login helpers encode jwt Hmarshal Hsign
                r password s Hsub) as Hrun.
  destruct (Login_cases jwt s password)
    as [(Hf & Hcode & _)|[(_ & Hm & _)|(_ & _ & HL)]].
  - eexists. eexists. eexists. split; [exact Hrun|].
    split; [right; exact Hcode|].
    revert Hcode. unfold Login.
    destruct (hex.DecodeString (state.Salt (state.AdminCredentials s)))
      as [salt [e|]]; [discriminate|].
    destruct (hex.DecodeString (state.PasswordHash (state.AdminCredentials s)))
      as [stored [e|]]; [discriminate|].
    destruct (hmac.Equal (candidate password salt) stored);
      [destruct (String.eqb (state.AdminToken s) "")|]; discriminate.
  - exfalso. destruct Hm as (salt & stored & _ & Hhash & Hmatch).
    apply Hlen.
    pose proof (proj2 (Decode_ok_iff
                         (bytes_of_string
                            (state.PasswordHash (state.AdminCredentials s)))))
      as Hdec.
    unfold hex.DecodeString in Hhash. rewrite Hhash in Hdec.
    cbn [fst snd] in Hdec. specialize (Hdec eq_refl).
    rewrite <- Hmatch, candidate_length in Hdec.
    rewrite <- (string_of_list_byte_of_string
                  (state.PasswordHash (state.AdminCredentials s))).
    fold (bytes_of_string (state.PasswordHash (state.AdminCredentials s))).
    fold (string_of_bytes
            (bytes_of_string (state.PasswordHash (state.AdminCredentials s)))).
    rewrite string_of_bytes_length. exact Hdec.
  - rewrite HL in Hrun. cbn [fst snd] in Hrun.
    eexists. eexists. eexists. split; [exact Hrun|].
    split; [left; reflexivity|discriminate].
Qed.

End LoginShape.

(** X21. The stored salt (and likewise the stored hash) makes the login
    fail with a decoding fault exactly when it is not an even number of
    hexadecimal digits, upper or lower case. *)
Theorem salt_corrupt_iff_malformed (s : state.t) :
  (salt_corrupt s
   <-> ~ (Nat.even (String.length (state.Salt (state.AdminCredentials s)))
          = true
          /\ Forall hex_digit
                    (bytes_of_string (state.Salt (state.AdminCredentials s)))))
  /\ (hash_corrupt s
      <-> ~ (Nat.even
               (String.length (state.PasswordHash (state.AdminCredentials s)))
             = true
             /\ Forall hex_digit
                       (bytes_of_string
                          (state.PasswordHash (state.AdminCredentials s)))))
  /\ (forall c, hex_digit c <-> In c (bytes_of_string "0123456789abcdefABCDEF")).
Proof.
  assert (Hlen : forall x, String.length x = List.length (bytes_of_string x)).
  { intros x. rewrite <- string_of_bytes_length. unfold string_of_bytes,
      bytes_of_string. rewrite string_of_list_byte_of_string. reflexivity. }
  unfold salt_corrupt, hash_corrupt, hex.DecodeString.
  rewrite !Hlen.
  split; [|split].
  - rewrite <- (proj1 (Decode_ok_iff _)). tauto.
  - rewrite <- (proj1 (Decode_ok_iff _)). tauto.
  - intros c. unfold hex_digit. split.
    + destruct c; vm_compute; intros H;
        first [exfalso; apply H; reflexivity
              | repeat first [left; reflexivity | right]].
    + intros H. vm_compute in H.
      repeat (destruct H as [<-|H]; [vm_compute; discriminate|]).
      contradiction.
Qed.

Lemma login_success_sound_witness :
  password_matches example_state "hunter2"
  /\ state.AdminToken example_state <> ""%string
  /\ render (TokenResponse (sign (state.AdminToken example_state)))
     = render (TokenResponse (sign (state.AdminToken example_state))).
Proof.
  apply (login_success_sound double render sign (login_request "hunter2")
           "hunter2" example_state).
  - exact double_marshals.
  - exact double_signs.
  - exact (double_submits "hunter2").
  - apply (answered_responded _ None _ _ example_state).
    pose proof (routeAdminLogin_Login double render sign double_marshals
                  double_signs (login_request "hunter2") "hunter2"
                  example_state (double_submits "hunter2")) as Hrun.
    rewrite (Login_stored sign example_state "hunter2" "hunter2"
               example_salt eq_refl), hmac_Equal_refl in Hrun.
    exact Hrun.
Defined.

Lemma login_needs_64_hex_chars_witness :
  exists ret code body,
    answered (routeAdminLogin double (login_request "pw")
                              (start short_hash_state))
             ret code body short_hash_state
    /\ (code = StatusUnauthorized \/ code = StatusInternalServerError)
    /\ ret <> None.
Proof.
  apply (login_needs_64_hex_chars double render sign (login_request "pw")
           "pw" short_hash_state).
  - exact double_marshals.
  - exact double_signs.
  - exact (double_submits "pw").
  - cbn. discriminate.
Defined.

(** ** C5: a second bootstrap *)





(** The two Keepers of [fresh_instance] after a first [Initialize] with
    the root key ["k1"] and a second one with ["k2"]: the reachable one
    holds ["k1"], and the second call changed nothing. *)
Example initialize_twice_keepers :
  option_map
    (fun r => (map poll.held (poll.keepers (bootstrap.world (fst r))),
               state.RootKey (poll.nexus (bootstrap.world (fst r))),
               state.AdminToken (poll.nexus (bootstrap.world (fst r))),
               snd r))
    (match bootstrap.Initialize env_default "hunter2" [x41] example_salt "k1"
                                fresh_instance with
     | Some (i1, _) =>
         bootstrap.Initialize env_default "letmein" [x42] [x01; x02] "k2" i1
     | None => None
     end)
  = Some (["k1"; ""]%string, "k1"%string, "spike.A"%string,
          Some bootstrap.ErrAlreadyInitialized).
Proof. lazy. reflexivity. Qed.
